(** * confluence-sync: a shallow embedding of [bin/main.py]

    The script publishes markdown files as Confluence pages.  Everything it
    does is sequential Python: reading the process environment, walking a
    directory, reading files, three kinds of HTTP call, [print] and
    [sys.exit].  The embedding below keeps that shape:

    - Python values that flow through the script dynamically (the decoded
      JSON of a response, the value returned by [find_page_by_title]) are
      values of [pyval];
    - the outside world (environment, file system, markdown renderer, remote
      service) is a record [World] the functions read from;
    - effects are a state-and-exception monad [Py] whose state is the
      chronological trace of observable events. *)

From Stdlib Require Import ZArith String Ascii List Bool.
From stdpp Require Import base gmap strings list pretty.

Local Open Scope string_scope.
Local Open Scope list_scope.
Local Open Scope Z_scope.

#[local] Set Warnings "-register-all".

(** ** String helpers of the Python library used by the script *)

Module PyString.

(** [s.endswith(suffix)] *)
Definition endswith (s suffix : string) : bool :=
  let n := String.length s in
  let m := String.length suffix in
  if (m <=? n)%nat then String.eqb (substring (n - m) m s) suffix else false.

(** [s.startswith(prefix)] *)
Definition startswith (s pre : string) : bool := String.prefix pre s.

(** [s.split(sep)] for a one-character separator. *)
Fixpoint split (sep : ascii) (s : string) : list string :=
  match s with
  | EmptyString => [EmptyString]
  | String c rest =>
      if Ascii.eqb c sep then EmptyString :: split sep rest
      else match split sep rest with
           | [] => [String c EmptyString]
           | hd :: tl => String c hd :: tl
           end
  end.

(** [s.rfind(c)], [-1] when [c] does not occur. *)
Fixpoint rfind_from (c : ascii) (s : string) (i : Z) (found : Z) : Z :=
  match s with
  | EmptyString => found
  | String d rest => rfind_from c rest (i + 1) (if Ascii.eqb d c then i else found)
  end.

Definition rfind (c : ascii) (s : string) : Z := rfind_from c s 0 (-1).

(** [s[i:]] and [s[:i]] for [0 <= i]. *)
Definition slice_from (s : string) (i : Z) : string :=
  substring (Z.to_nat i) (String.length s - Z.to_nat i) s.

Definition slice_to (s : string) (i : Z) : string :=
  substring 0 (Z.to_nat i) s.

Fixpoint all_dots (s : string) : bool :=
  match s with
  | EmptyString => true
  | String c rest => Ascii.eqb c "." && all_dots rest
  end.

Definition is_empty (s : string) : bool :=
  match s with EmptyString => true | _ => false end.

(** Whether [s.encode("latin1")] succeeds.  A string of the model is the
    UTF-8 bytes of the Python string, so every character is at most U+00FF
    exactly when the bytes are ASCII bytes and two-byte sequences whose
    first byte is C2 or C3. *)
Fixpoint latin1_encodable (s : string) : bool :=
  match s with
  | EmptyString => true
  | String c rest =>
      let n := nat_of_ascii c in
      if (n <? 128)%nat then latin1_encodable rest
      else if (n =? 194)%nat || (n =? 195)%nat then
        match rest with
        | String d rest' =>
            let m := nat_of_ascii d in
            (128 <=? m)%nat && (m <? 192)%nat && latin1_encodable rest'
        | EmptyString => false
        end
      else false
  end.

End PyString.

(** ** [os.path] on POSIX *)

Module OsPath.
Import PyString.

(** [os.path.join(a, b)] *)
Definition join (a b : string) : string :=
  if startswith b "/" then b
  else if is_empty a || endswith a "/" then a +:+ b
  else a +:+ "/" +:+ b.

(** [os.path.basename(p)]: [p[p.rfind('/') + 1:]] *)
Definition basename (p : string) : string :=
  slice_from p (rfind "/" p + 1).

(** [os.path.splitext(p)]: the extension starts at the last dot of the
    last path component, leading dots of that component not counting. *)
Definition splitext (p : string) : string * string :=
  let sepIndex := rfind "/" p in
  let dotIndex := rfind "." p in
  if sepIndex <? dotIndex then
    let filenameIndex := sepIndex + 1 in
    if all_dots (substring (Z.to_nat filenameIndex)
                           (Z.to_nat (dotIndex - filenameIndex)) p)
    then (p, "")
    else (slice_to p dotIndex, slice_from p dotIndex)
  else (p, "").

End OsPath.

(** ** Python values

    The decoded JSON of a response and the value [find_page_by_title]
    returns are dynamically typed; the script subscripts them, tests their
    truth value and formats them.  JSON numbers are modelled as integers
    (identifiers and version numbers are). *)

Inductive pyval : Type :=
| PNone
| PBool (b : bool)
| PInt (n : Z)
| PStr (s : string)
| PList (items : list pyval)
| PTuple (items : list pyval)
| PDict (items : list (string * pyval)).

(** Exceptions the script can meet.  [SystemExit] is what [sys.exit] raises;
    it is a [BaseException] and no handler of the script catches it. *)
Inductive exn : Type :=
| SystemExit (code : Z)
| KeyError (key : string)
| TypeError
| IndexError
| AttributeError
| OSError (path : string)
| UnicodeDecodeError
| UnicodeEncodeError
| JSONDecodeError (msg : string)
| RequestException (msg : string).

Inductive outcome (A : Type) : Type :=
| Ret (a : A)
| Raise (e : exn).
Arguments Ret {A} a.
Arguments Raise {A} e.

Module PyVal.

(** [bool(v)] *)
Definition truthy (v : pyval) : bool :=
  match v with
  | PNone => false
  | PBool b => b
  | PInt n => negb (n =? 0)
  | PStr s => negb (PyString.is_empty s)
  | PList l | PTuple l => match l with [] => false | _ => true end
  | PDict d => match d with [] => false | _ => true end
  end.

(** Lookup in the items of a dict (keys are unique, as in a dict). *)
Fixpoint assoc (k : string) (d : list (string * pyval)) : option pyval :=
  match d with
  | [] => None
  | (k', v) :: rest => if String.eqb k k' then Some v else assoc k rest
  end.

(** [seq[i]] on a list or tuple, negative indices counting from the end. *)
Definition index_seq (l : list pyval) (i : Z) : outcome pyval :=
  let n := Z.of_nat (length l) in
  let j := if i <? 0 then i + n else i in
  if (0 <=? j) && (j <? n) then
    match l !! Z.to_nat j with
    | Some v => Ret v
    | None => Raise IndexError
    end
  else Raise IndexError.

(** [obj[key]] for a string key. *)
Definition getitem_str (obj : pyval) (key : string) : outcome pyval :=
  match obj with
  | PDict d => match assoc key d with
               | Some v => Ret v
               | None => Raise (KeyError key)
               end
  | PList _ | PTuple _ | PStr _ => Raise TypeError
  | PNone | PBool _ | PInt _ => Raise TypeError
  end.

(** [obj[i]] for an integer index. *)
Definition getitem_int (obj : pyval) (i : Z) : outcome pyval :=
  match obj with
  | PDict _ => Raise (KeyError (pretty i))
  | PList l | PTuple l => index_seq l i
  | PStr s =>
      let n := Z.of_nat (String.length s) in
      let j := if i <? 0 then i + n else i in
      if (0 <=? j) && (j <? n)
      then Ret (PStr (substring (Z.to_nat j) 1 s))
      else Raise IndexError
  | PNone | PBool _ | PInt _ => Raise TypeError
  end.

(** [obj.get(key)]: only a dict has the method. *)
Definition get (obj : pyval) (key : string) : outcome pyval :=
  match obj with
  | PDict d => Ret (default PNone (assoc key d))
  | _ => Raise AttributeError
  end.

(** [v + k] for an integer literal [k]. *)
Definition add_int (v : pyval) (k : Z) : outcome pyval :=
  match v with
  | PInt n => Ret (PInt (n + k))
  | PBool b => Ret (PInt (Z.b2z b + k))
  | _ => Raise TypeError
  end.

(** [s + v] for a string [s]. *)
Definition str_add (s : string) (v : pyval) : outcome string :=
  match v with
  | PStr t => Ret (s +:+ t)
  | _ => Raise TypeError
  end.

(** [s != v] for a string [s]: a string equals only an equal string. *)
Definition str_ne (s : string) (v : pyval) : bool :=
  match v with
  | PStr t => negb (String.eqb s t)
  | _ => true
  end.

Definition join_with (sep : string) (parts : list string) : string :=
  match parts with
  | [] => ""
  | p :: ps => fold_left (fun acc x => acc +:+ sep +:+ x) ps p
  end.

(** [repr(v)].  A string is quoted with single quotes and not escaped,
    which is what Python prints for strings without quotes, backslashes
    and control characters. *)
Fixpoint repr (v : pyval) : string :=
  match v with
  | PNone => "None"
  | PBool true => "True"
  | PBool false => "False"
  | PInt n => pretty n
  | PStr s => "'" +:+ s +:+ "'"
  | PList l => "[" +:+ join_with ", " (map repr l) +:+ "]"
  | PTuple [x] => "(" +:+ repr x +:+ ",)"
  | PTuple l => "(" +:+ join_with ", " (map repr l) +:+ ")"
  | PDict d =>
      "{" +:+
      join_with ", " (map (fun kv => "'" +:+ fst kv +:+ "': " +:+ repr (snd kv)) d)
      +:+ "}"
  end.

(** [str(v)], what an f-string field shows. *)
Definition str (v : pyval) : string :=
  match v with
  | PStr s => s
  | _ => repr v
  end.

End PyVal.

(** ** The outside world and the trace of observable events *)

Inductive http_method : Type := GET | POST | PUT.

(** The arguments of one [requests.get] / [requests.post] / [requests.put]. *)
Record request : Type := {
  req_method : http_method;
  req_url : string;
  req_params : list (string * string);
  req_json : option pyval;
  req_auth : string * string;
  req_headers : list (string * string);
  req_timeout : Z }.

(** A response object: its [status_code], and what [.json()] gives: the
    decoded body, or the message of the decoding error. *)
Record response : Type := {
  status_code : Z;
  json_body : string + pyval }.

(** How a call of [requests.get], [requests.post] or [requests.put] ends:
    it raises a [RequestException] (invalid URL, connection error, timeout,
    ...), it returns a response, or it raises [UnicodeEncodeError] while
    preparing the request, before anything is sent. *)
Inductive http_result : Type :=
| HttpFailure (msg : string)
| HttpResponse (r : response)
| HttpNotSent.

Inductive read_result : Type :=
| ReadOk (text : string)
| ReadOSError
| ReadUnicodeDecodeError.

(** The [print] statements of the script, each with the values it formats;
    [message_text] gives the line written. *)
Inductive message : Type :=
| MissingValue (var_name : string)
| UpdateSuccessful (page_title : string) (new_version : pyval)
| Failed (page_title : string) (status : Z)
| IdenticalContent (page_title : string)
| UploadSuccessful (page_title : string)
| HttpRequestError (e : string)
| NoInputProvided
| LinkList (links : list string).

Definition message_text (m : message) : string :=
  match m with
  | MissingValue var_name => "Missing value for " +:+ var_name
  | UpdateSuccessful page_title new_version =>
      page_title +:+ ": Content update successful. New version: "
      +:+ PyVal.str new_version
  | Failed page_title status =>
      page_title +:+ ": Failed. HTTP status code: " +:+ pretty status
  | IdenticalContent page_title =>
      page_title +:+ ": Identical content, no update required."
  | UploadSuccessful page_title =>
      page_title +:+ ": Content upload successful."
  | HttpRequestError e => "An error occurred during the HTTP request: " +:+ e
  | NoInputProvided => "No specific input provided."
  | LinkList links => PyVal.repr (PList (map PStr links))
  end.

Inductive event : Type :=
| EvPrint (m : message)   (* print(...) *)
| EvOpen (path : string)  (* open(path, encoding='utf-8') *)
| EvWalk (top : string)   (* os.walk(top) *)
| EvHttp (req : request) (res : http_result).

Record World : Type := {
  (** [os.environ] *)
  environ : gmap string string;
  (** opening and reading a file as UTF-8 text *)
  read_text : string -> read_result;
  (** the [(root, dirs, files)] triples [os.walk(top)] yields, in order *)
  os_walk : string -> list (string * list string * list string);
  (** [MarkdownIt().render] *)
  markdown_render : string -> string;
  (** the remote service and the network: what becomes of a request, given
      what happened before *)
  answer : list event -> request -> http_result;
  (** whether the error of [response.json()] is a [RequestException]
      (it is since requests 2.27) *)
  json_error_is_request_exception : bool }.

(** ** The monad of the script: a trace of events and exceptions *)

Definition Py (A : Type) : Type := list event -> outcome A * list event.

Definition ret {A} (a : A) : Py A := fun tr => (Ret a, tr).

Definition raise {A} (e : exn) : Py A := fun tr => (Raise e, tr).

Definition bind {A B} (m : Py A) (k : A -> Py B) : Py B :=
  fun tr =>
    match m tr with
    | (Ret a, tr') => k a tr'
    | (Raise e, tr') => (Raise e, tr')
    end.

Notation "x <- m ;; k" := (bind m (fun x => k))
  (at level 200, m at level 99, k at level 200, only parsing).

(** An expression that may raise but has no other effect. *)
Definition lift {A} (o : outcome A) : Py A := fun tr => (o, tr).

Definition emit (e : event) : Py unit := fun tr => (Ret tt, tr ++ [e]).

(** [print(...)] *)
Definition print (m : message) : Py unit := emit (EvPrint m).

(** [sys.exit(code)] *)
Definition sys_exit {A} (code : Z) : Py A := raise (SystemExit code).

(** [try: body except <class> as e: handler(e)] *)
Definition try_except {A} (body : Py A) (caught : exn -> bool)
    (handler : exn -> Py A) : Py A :=
  fun tr =>
    match body tr with
    | (Raise e, tr') => if caught e then handler e tr' else (Raise e, tr')
    | r => r
    end.

(** [for x in xs: acc = body(x, acc)] *)
Fixpoint for_each {A S} (xs : list A) (body : A -> S -> Py S) (acc : S) : Py S :=
  match xs with
  | [] => ret acc
  | x :: rest => acc' <- body x acc ;; for_each rest body acc'
  end.

(** [d[key]] on a dict with string keys and string values ([envs],
    [os.environ]). *)
Definition dict_getitem (d : gmap string string) (key : string) : Py string :=
  match d !! key with
  | Some v => ret v
  | None => raise (KeyError key)
  end.

(** [key in d] *)
Definition dict_contains (d : gmap string string) (key : string) : bool :=
  bool_decide (is_Some (d !! key)).

(** [with open(path, encoding='utf-8') as f: f.read()] *)
Definition open_read (w : World) (path : string) : Py string :=
  _ <- emit (EvOpen path) ;;
  match read_text w path with
  | ReadOk text => ret text
  | ReadOSError => raise (OSError path)
  | ReadUnicodeDecodeError => raise UnicodeDecodeError
  end.

(** Basic authentication encodes the user and the password as latin-1
    when it prepares the request. *)
Definition basic_auth_encodable (auth : string * string) : bool :=
  PyString.latin1_encodable (fst auth) && PyString.latin1_encodable (snd auth).

(** How the call for a request ends.  No response can come back for
    credentials that basic authentication cannot encode: the call has
    raised [UnicodeEncodeError] before sending. *)
Definition remote (w : World) (tr : list event) (req : request) : http_result :=
  match answer w tr req with
  | HttpResponse r =>
      if basic_auth_encodable (req_auth req) then HttpResponse r else HttpNotSent
  | res => res
  end.

(** [requests.<method>(url, ...)].  A call that raised [UnicodeEncodeError]
    has sent nothing and leaves no event. *)
Definition requests_call (w : World) (req : request) : Py response :=
  fun tr =>
    match remote w tr req with
    | HttpFailure msg =>
        (Raise (RequestException msg), tr ++ [EvHttp req (HttpFailure msg)])
    | HttpResponse r => (Ret r, tr ++ [EvHttp req (HttpResponse r)])
    | HttpNotSent => (Raise UnicodeEncodeError, tr)
    end.

(** [response.json()] *)
Definition response_json (r : response) : Py pyval :=
  match json_body r with
  | inl msg => raise (JSONDecodeError msg)
  | inr v => ret v
  end.

(** What [except RequestException as e] catches, and [str(e)]. *)
Definition is_RequestException (w : World) (e : exn) : bool :=
  match e with
  | RequestException _ => true
  | JSONDecodeError _ => json_error_is_request_exception w
  | _ => false
  end.

Definition exn_message (e : exn) : string :=
  match e with
  | RequestException msg | JSONDecodeError msg => msg
  | _ => ""
  end.

(** ** The script *)

Module Main.
Import PyString.

Definition env_var_names : list string :=
  ["cloud"; "user"; "token"; "parent_page_id"; "space_id"].

(** [if name in os.environ: envs[name] = os.environ[name]] *)
Definition copy_if_present (w : World) (name : string)
    (envs : gmap string string) : gmap string string :=
  match environ w !! name with
  | Some v => <[name := v]> envs
  | None => envs
  end.

(** [load_environment_variables()].  [os.environ.get] gives [None] for an
    absent name; the entry stored for it is never read, because the test
    that follows exits, so [envs] holds strings only. *)
Definition load_environment_variables (w : World) : Py (gmap string string) :=
  envs <- for_each env_var_names
            (fun var_name envs =>
               match environ w !! var_name with
               | Some v =>
                   if negb (is_empty v) then ret (<[var_name := v]> envs)
                   else
                     _ <- print (MissingValue var_name) ;;
                     sys_exit 1
               | None =>
                   _ <- print (MissingValue var_name) ;;
                   sys_exit 1
               end)
            (∅ : gmap string string) ;;
  let envs := copy_if_present w "input_file" envs in
  let envs := copy_if_present w "input_md_directory" envs in
  let envs := copy_if_present w "exclude_files" envs in
  ret envs.

(** [find_page_by_title(page_title, envs)]: returns a tuple of three
    values when the lookup finds a page and a tuple of two [None]
    otherwise. *)
Definition find_page_by_title (w : World) (page_title : string)
    (envs : gmap string string) : Py pyval :=
  cloud <- dict_getitem envs "cloud" ;;
  let url := "https://" +:+ cloud +:+ ".atlassian.net/wiki/api/v2/pages" in
  let params := [("title", page_title)] in
  let headers := [("Accept", "application/json")] in
  user <- dict_getitem envs "user" ;;
  token <- dict_getitem envs "token" ;;
  response <- requests_call w
    {| req_method := GET; req_url := url; req_params := params;
       req_json := None; req_auth := (user, token);
       req_headers := headers; req_timeout := 10 |} ;;
  let not_found := ret (PTuple [PNone; PNone]) in
  if status_code response =? 200 then
    data <- response_json response ;;
    results <- lift (PyVal.get data "results") ;;
    if PyVal.truthy results then
      results <- lift (PyVal.getitem_str data "results") ;;
      first <- lift (PyVal.getitem_int results 0) ;;
      page_id <- lift (PyVal.getitem_str first "id") ;;
      results <- lift (PyVal.getitem_str data "results") ;;
      first <- lift (PyVal.getitem_int results 0) ;;
      version <- lift (PyVal.getitem_str first "version") ;;
      version_number <- lift (PyVal.getitem_str version "number") ;;
      results <- lift (PyVal.getitem_str data "results") ;;
      first <- lift (PyVal.getitem_int results 0) ;;
      body <- lift (PyVal.getitem_str first "body") ;;
      existing_content <- lift (PyVal.getitem_str body "storage") ;;
      ret (PTuple [page_id; version_number; existing_content])
    else not_found
  else not_found.

(** The body of the [try] of [process_file]. *)
Definition process_file_body (w : World) (md_file : string)
    (envs : gmap string string) (links : list string) : Py (list string) :=
  md <- open_read w md_file ;;
  let html := markdown_render w md in
  let page_title := fst (OsPath.splitext (OsPath.basename md_file)) in
  page_info <- find_page_by_title w page_title envs ;;
  current_version <- lift (PyVal.getitem_str page_info "current_version") ;;
  new_version <-
    (if PyVal.truthy current_version then
       current_version <- lift (PyVal.getitem_str page_info "current_version") ;;
       lift (PyVal.add_int current_version 1)
     else ret PNone) ;;
  page_id <- lift (PyVal.getitem_str page_info "page_id") ;;
  if PyVal.truthy page_id then
    existing_content <- lift (PyVal.getitem_str page_info "existing_content") ;;
    if PyVal.str_ne html existing_content then
      cloud <- dict_getitem envs "cloud" ;;
      page_id <- lift (PyVal.getitem_str page_info "page_id") ;;
      let update_url :=
        "https://" +:+ cloud +:+ ".atlassian.net/wiki/api/v2/pages/"
        +:+ PyVal.str page_id in
      page_id <- lift (PyVal.getitem_str page_info "page_id") ;;
      let update_content :=
        PDict [("id", page_id);
               ("status", PStr "current");
               ("version", PDict [("number", new_version)]);
               ("title", PStr page_title);
               ("body", PDict [("value", PStr html);
                               ("representation", PStr "storage")])] in
      let headers := [("Content-Type", "application/json")] in
      user <- dict_getitem envs "user" ;;
      token <- dict_getitem envs "token" ;;
      update_response <- requests_call w
        {| req_method := PUT; req_url := update_url; req_params := [];
           req_json := Some update_content; req_auth := (user, token);
           req_headers := headers; req_timeout := 10 |} ;;
      if status_code update_response =? 200 then
        cloud <- dict_getitem envs "cloud" ;;
        data <- response_json update_response ;;
        links_field <- lift (PyVal.getitem_str data "_links") ;;
        webui <- lift (PyVal.getitem_str links_field "webui") ;;
        updated_link <-
          lift (PyVal.str_add ("https://" +:+ cloud +:+ ".atlassian.net/wiki") webui) ;;
        let links := links ++ [page_title +:+ ": " +:+ updated_link] in
        _ <- print (UpdateSuccessful page_title new_version) ;;
        ret links
      else
        _ <- print (Failed page_title (status_code update_response)) ;;
        ret links
    else
      _ <- print (IdenticalContent page_title) ;;
      ret links
  else
    cloud <- dict_getitem envs "cloud" ;;
    let url := "https://" +:+ cloud +:+ ".atlassian.net/wiki/api/v2/pages" in
    space_id <- dict_getitem envs "space_id" ;;
    parent_page_id <- dict_getitem envs "parent_page_id" ;;
    let content :=
      PDict [("spaceId", PStr space_id);
             ("status", PStr "current");
             ("title", PStr page_title);
             ("parentId", PStr parent_page_id);
             ("body", PDict [("value", PStr html);
                             ("representation", PStr "storage")])] in
    let headers := [("Accept", "application/json");
                    ("Content-Type", "application/json")] in
    user <- dict_getitem envs "user" ;;
    token <- dict_getitem envs "token" ;;
    response <- requests_call w
      {| req_method := POST; req_url := url; req_params := [];
         req_json := Some content; req_auth := (user, token);
         req_headers := headers; req_timeout := 10 |} ;;
    if status_code response =? 200 then
      cloud <- dict_getitem envs "cloud" ;;
      data <- response_json response ;;
      links_field <- lift (PyVal.getitem_str data "_links") ;;
      webui <- lift (PyVal.getitem_str links_field "webui") ;;
      link <-
        lift (PyVal.str_add ("https://" +:+ cloud +:+ ".atlassian.net/wiki") webui) ;;
      let links := links ++ [page_title +:+ ": " +:+ link] in
      _ <- print (UploadSuccessful page_title) ;;
      ret links
    else
      _ <- print (Failed page_title (status_code response)) ;;
      ret links.

(** Lines 80 to 153 of [process_file]: what it does with the value of
    [page_info], once the file is rendered and the lookup has returned. *)
Definition publish_page (w : World) (envs : gmap string string)
    (links : list string) (page_title html : string) (page_info : pyval) :
    Py (list string) :=
  current_version <- lift (PyVal.getitem_str page_info "current_version") ;;
  new_version <-
    (if PyVal.truthy current_version then
       current_version <- lift (PyVal.getitem_str page_info "current_version") ;;
       lift (PyVal.add_int current_version 1)
     else ret PNone) ;;
  page_id <- lift (PyVal.getitem_str page_info "page_id") ;;
  if PyVal.truthy page_id then
    existing_content <- lift (PyVal.getitem_str page_info "existing_content") ;;
    if PyVal.str_ne html existing_content then
      cloud <- dict_getitem envs "cloud" ;;
      page_id <- lift (PyVal.getitem_str page_info "page_id") ;;
      let update_url :=
        "https://" +:+ cloud +:+ ".atlassian.net/wiki/api/v2/pages/"
        +:+ PyVal.str page_id in
      page_id <- lift (PyVal.getitem_str page_info "page_id") ;;
      let update_content :=
        PDict [("id", page_id);
               ("status", PStr "current");
               ("version", PDict [("number", new_version)]);
               ("title", PStr page_title);
               ("body", PDict [("value", PStr html);
                               ("representation", PStr "storage")])] in
      let headers := [("Content-Type", "application/json")] in
      user <- dict_getitem envs "user" ;;
      token <- dict_getitem envs "token" ;;
      update_response <- requests_call w
        {| req_method := PUT; req_url := update_url; req_params := [];
           req_json := Some update_content; req_auth := (user, token);
           req_headers := headers; req_timeout := 10 |} ;;
      if status_code update_response =? 200 then
        cloud <- dict_getitem envs "cloud" ;;
        data <- response_json update_response ;;
        links_field <- lift (PyVal.getitem_str data "_links") ;;
        webui <- lift (PyVal.getitem_str links_field "webui") ;;
        updated_link <-
          lift (PyVal.str_add ("https://" +:+ cloud +:+ ".atlassian.net/wiki") webui) ;;
        let links := links ++ [page_title +:+ ": " +:+ updated_link] in
        _ <- print (UpdateSuccessful page_title new_version) ;;
        ret links
      else
        _ <- print (Failed page_title (status_code update_response)) ;;
        ret links
    else
      _ <- print (IdenticalContent page_title) ;;
      ret links
  else
    cloud <- dict_getitem envs "cloud" ;;
    let url := "https://" +:+ cloud +:+ ".atlassian.net/wiki/api/v2/pages" in
    space_id <- dict_getitem envs "space_id" ;;
    parent_page_id <- dict_getitem envs "parent_page_id" ;;
    let content :=
      PDict [("spaceId", PStr space_id);
             ("status", PStr "current");
             ("title", PStr page_title);
             ("parentId", PStr parent_page_id);
             ("body", PDict [("value", PStr html);
                             ("representation", PStr "storage")])] in
    let headers := [("Accept", "application/json");
                    ("Content-Type", "application/json")] in
    user <- dict_getitem envs "user" ;;
    token <- dict_getitem envs "token" ;;
    response <- requests_call w
      {| req_method := POST; req_url := url; req_params := [];
         req_json := Some content; req_auth := (user, token);
         req_headers := headers; req_timeout := 10 |} ;;
    if status_code response =? 200 then
      cloud <- dict_getitem envs "cloud" ;;
      data <- response_json response ;;
      links_field <- lift (PyVal.getitem_str data "_links") ;;
      webui <- lift (PyVal.getitem_str links_field "webui") ;;
      link <-
        lift (PyVal.str_add ("https://" +:+ cloud +:+ ".atlassian.net/wiki") webui) ;;
      let links := links ++ [page_title +:+ ": " +:+ link] in
      _ <- print (UploadSuccessful page_title) ;;
      ret links
    else
      _ <- print (Failed page_title (status_code response)) ;;
      ret links.

(** [process_file(md_file, envs, links)] *)
Definition process_file (w : World) (md_file : string)
    (envs : gmap string string) (links : list string) : Py (list string) :=
  try_except (process_file_body w md_file envs links)
    (is_RequestException w)
    (fun e =>
       _ <- print (HttpRequestError (exn_message e)) ;;
       sys_exit 1).

(** The exclusion list of [process_directory]. *)
Definition exclude_list (envs : gmap string string) : list string :=
  match envs !! "exclude_files" with
  | Some v => if negb (is_empty v) then split "," v else []
  | None => []
  end.

(** The test of the inner loop of [process_directory]. *)
Definition selected (exclude_files : list string) (f : string) : bool :=
  endswith f ".md" && negb (bool_decide (f ∈ exclude_files)).

(** [process_directory(envs, links)] *)
Definition process_directory (w : World) (envs : gmap string string)
    (links : list string) : Py (list string) :=
  workspace <- dict_getitem (environ w) "GITHUB_WORKSPACE" ;;
  input_md_directory <- dict_getitem envs "input_md_directory" ;;
  let md_directory := OsPath.join workspace input_md_directory in
  let exclude_files := exclude_list envs in
  _ <- emit (EvWalk md_directory) ;;
  for_each (os_walk w md_directory)
    (fun '(root, _, files) links =>
       for_each files
         (fun f links =>
            if selected exclude_files f then
              let md_file := OsPath.join root f in
              process_file w md_file envs links
            else ret links)
         links)
    links.

(** [main()] *)
Definition main (w : World) : Py unit :=
  envs <- load_environment_variables w ;;
  let links := [] in
  links <-
    (if dict_contains envs "input_file" then
       workspace <- dict_getitem (environ w) "GITHUB_WORKSPACE" ;;
       input_file <- dict_getitem envs "input_file" ;;
       let single_file := OsPath.join workspace input_file in
       process_file w single_file envs links
     else if dict_contains envs "input_md_directory" then
       process_directory w envs links
     else
       _ <- print NoInputProvided ;;
       sys_exit 1) ;;
  print (LinkList links).

(** Running the script from an empty trace, and the exit status of the
    process: 0 on normal return, the code of [sys.exit], 1 for an uncaught
    exception. *)
Definition run (w : World) : outcome unit * list event := main w [].

Definition exit_status {A} (o : outcome A) : Z :=
  match o with
  | Ret _ => 0
  | Raise (SystemExit code) => code
  | Raise _ => 1
  end.

End Main.

(** * Vocabulary of the properties *)

Import Main.

(** The title [process_file] derives from a path. *)
Definition page_title_of (md_file : string) : string :=
  fst (OsPath.splitext (OsPath.basename md_file)).

(** The lookup request [find_page_by_title] sends. *)
Definition lookup_request (cloud user token page_title : string) : request :=
  {| req_method := GET;
     req_url := "https://" +:+ cloud +:+ ".atlassian.net/wiki/api/v2/pages";
     req_params := [("title", page_title)];
     req_json := None;
     req_auth := (user, token);
     req_headers := [("Accept", "application/json")];
     req_timeout := 10 |}.

(** A write call is a create ([POST]) or an update ([PUT]). *)
Definition is_write (ev : event) : bool :=
  match ev with
  | EvHttp req _ => match req_method req with GET => false | _ => true end
  | _ => false
  end.

Definition is_print (ev : event) : bool :=
  match ev with
  | EvPrint _ => true
  | _ => false
  end.

(** An exception raised by plain Python code of the script, as opposed to
    the two ways the script ends a run on purpose. *)
Definition is_crash (e : exn) : Prop :=
  match e with
  | SystemExit _ | RequestException _ => False
  | _ => True
  end.

(** What [find_page_by_title] returns when it returns. *)
Definition is_lookup_tuple (v : pyval) : Prop :=
  v = PTuple [PNone; PNone] \/ exists a b c, v = PTuple [a; b; c].

(** The ways a call of [find_page_by_title] can end. *)
Inductive lookup_result (w : World) (page_title : string) (tr : list event) :
    outcome pyval * list event -> Prop :=
| lookup_config key :
    lookup_result w page_title tr (Raise (KeyError key), tr)
| lookup_transport cloud user token msg :
    remote w tr (lookup_request cloud user token page_title) = HttpFailure msg ->
    lookup_result w page_title tr
      (Raise (RequestException msg),
       tr ++ [EvHttp (lookup_request cloud user token page_title) (HttpFailure msg)])
| lookup_bad_json cloud user token r msg :
    remote w tr (lookup_request cloud user token page_title) = HttpResponse r ->
    lookup_result w page_title tr
      (Raise (JSONDecodeError msg),
       tr ++ [EvHttp (lookup_request cloud user token page_title) (HttpResponse r)])
| lookup_bad_shape cloud user token r e :
    remote w tr (lookup_request cloud user token page_title) = HttpResponse r ->
    e = AttributeError \/ e = TypeError \/ e = IndexError \/ (exists k, e = KeyError k) ->
    lookup_result w page_title tr
      (Raise e,
       tr ++ [EvHttp (lookup_request cloud user token page_title) (HttpResponse r)])
| lookup_returns cloud user token r v :
    remote w tr (lookup_request cloud user token page_title) = HttpResponse r ->
    is_lookup_tuple v ->
    lookup_result w page_title tr
      (Ret v,
       tr ++ [EvHttp (lookup_request cloud user token page_title) (HttpResponse r)])
| lookup_not_sent :
    lookup_result w page_title tr (Raise UnicodeEncodeError, tr).

(** The ways a call of [process_file] can end. *)
Inductive process_file_result (w : World) (md_file : string) (tr : list event) :
    outcome (list string) * list event -> Prop :=
| pf_before_lookup e :
    is_crash e ->
    process_file_result w md_file tr (Raise e, tr ++ [EvOpen md_file])
| pf_transport req msg :
    req_method req = GET ->
    process_file_result w md_file tr
      (Raise (SystemExit 1),
       tr ++ [EvOpen md_file; EvHttp req (HttpFailure msg);
              EvPrint (HttpRequestError msg)])
| pf_json_caught req r msg :
    req_method req = GET ->
    process_file_result w md_file tr
      (Raise (SystemExit 1),
       tr ++ [EvOpen md_file; EvHttp req (HttpResponse r);
              EvPrint (HttpRequestError msg)])
| pf_after_lookup req r e :
    req_method req = GET ->
    is_crash e ->
    process_file_result w md_file tr
      (Raise e, tr ++ [EvOpen md_file; EvHttp req (HttpResponse r)]).

(** A required setting is set when it is present and not empty. *)
Definition is_set (w : World) (name : string) : bool :=
  match environ w !! name with
  | Some v => negb (PyString.is_empty v)
  | None => false
  end.

Definition required_settings_present (w : World) : Prop :=
  forallb (is_set w) env_var_names = true.

(** The body of the validation loop of [load_environment_variables]. *)
Definition check_setting (w : World) (var_name : string)
    (envs : gmap string string) : Py (gmap string string) :=
  match environ w !! var_name with
  | Some v =>
      if negb (PyString.is_empty v) then ret (<[var_name := v]> envs)
      else _ <- print (MissingValue var_name) ;; sys_exit 1
  | None => _ <- print (MissingValue var_name) ;; sys_exit 1
  end.

(** The dictionary the validation loop builds when nothing is missing. *)
Definition required_envs (w : World) (names : list string)
    (envs : gmap string string) : gmap string string :=
  foldl (fun envs name => <[name := default "" (environ w !! name)]> envs)
        envs names.

(** The dictionary [load_environment_variables] returns when nothing is
    missing. *)
Definition loaded_envs (w : World) : gmap string string :=
  copy_if_present w "exclude_files"
    (copy_if_present w "input_md_directory"
       (copy_if_present w "input_file" (required_envs w env_var_names ∅))).

(** The body of the inner loop of [process_directory]. *)
Definition visit_file (w : World) (envs : gmap string string)
    (exclude_files : list string) (root f : string) (links : list string) :
    Py (list string) :=
  if selected exclude_files f
  then process_file w (OsPath.join root f) envs links
  else ret links.

(** The first file of a walk that passes the test of [process_directory]. *)
Fixpoint first_selected (exclude_files : list string)
    (walk : list (string * list string * list string)) : option string :=
  match walk with
  | [] => None
  | (root, _, files) :: rest =>
      match find (selected exclude_files) files with
      | Some f => Some (OsPath.join root f)
      | None => first_selected exclude_files rest
      end
  end.

(** The ways a run of the script can end. *)
Inductive run_result (w : World) : outcome unit * list event -> Prop :=
| run_missing_setting name :
    run_result w (Raise (SystemExit 1), [EvPrint (MissingValue name)])
| run_no_workspace :
    run_result w (Raise (KeyError "GITHUB_WORKSPACE"), [])
| run_no_input :
    run_result w (Raise (SystemExit 1), [EvPrint NoInputProvided])
| run_single_file md_file e tr :
    process_file_result w md_file [] (Raise e, tr) ->
    run_result w (Raise e, tr)
| run_directory top md_file e tr :
    process_file_result w md_file [EvWalk top] (Raise e, tr) ->
    run_result w (Raise e, tr)
| run_empty_directory top :
    run_result w (Ret tt, [EvWalk top; EvPrint (LinkList [])]).

(** ** A concrete run: the scenario of the specification

    A workspace [/ws] whose directory [docs] holds [a.md] (no remote page
    yet), [b.md] (remote page with the same content), [c.md] (remote page
    with other content), [excluded.md] (named in the exclusion list) and
    [notes.txt].  The remote service answers a write call with status
    [write_status]. *)

Module Scenario.

Definition settings : list (string * string) :=
  [("cloud", "acme"); ("user", "bot"); ("token", "secret");
   ("parent_page_id", "100"); ("space_id", "7");
   ("input_md_directory", "docs"); ("exclude_files", "excluded.md");
   ("GITHUB_WORKSPACE", "/ws")].

Definition files : list (string * string) :=
  [("/ws/docs/a.md", "alpha"); ("/ws/docs/b.md", "beta");
   ("/ws/docs/c.md", "gamma"); ("/ws/docs/excluded.md", "hidden");
   ("/ws/docs/notes.txt", "plain")].

Fixpoint lookup_file (path : string) (fs : list (string * string)) : read_result :=
  match fs with
  | [] => ReadOSError
  | (p, text) :: rest => if String.eqb path p then ReadOk text else lookup_file path rest
  end.

(** A paragraph as the renderer writes it, with its final newline. *)
Definition render (md : string) : string :=
  "<p>" +:+ md +:+ "</p>" +:+ String "010"%char "".

Definition page (id : string) (version : Z) (stored : string) : pyval :=
  PDict [("id", PStr id);
         ("version", PDict [("number", PInt version)]);
         ("body", PDict [("storage", PStr stored)])].

Definition found (p : pyval) : http_result :=
  HttpResponse {| status_code := 200;
                  json_body := inr (PDict [("results", PList [p])]) |}.

Definition no_match : http_result :=
  HttpResponse {| status_code := 200;
                  json_body := inr (PDict [("results", PList [])]) |}.

Definition written (status : Z) : http_result :=
  HttpResponse {| status_code := status;
                  json_body := inr (PDict [("_links",
                                 PDict [("webui", PStr "/spaces/DOC/pages/1")])]) |}.

Definition service (write_status : Z) (tr : list event) (req : request) : http_result :=
  match req_method req with
  | GET =>
      match req_params req with
      | [(_, title)] =>
          if String.eqb title "b" then found (page "201" 3 (render "beta"))
          else if String.eqb title "c" then found (page "202" 5 "<p>old</p>")
          else no_match
      | _ => no_match
      end
  | _ => written write_status
  end.

Definition world (write_status : Z) : World :=
  {| environ := list_to_map settings;
     read_text := fun path => lookup_file path files;
     os_walk := fun top =>
       if String.eqb top "/ws/docs"
       then [("/ws/docs", [], ["a.md"; "b.md"; "c.md"; "excluded.md"; "notes.txt"])]
       else [];
     markdown_render := render;
     answer := service write_status;
     json_error_is_request_exception := true |}.

(** The same run in single-file mode. *)
Definition single_file_world (input_file : string) (write_status : Z) : World :=
  {| environ := <["input_file" := input_file]> (list_to_map settings);
     read_text := fun path => lookup_file path files;
     os_walk := os_walk (world write_status);
     markdown_render := render;
     answer := service write_status;
     json_error_is_request_exception := true |}.

(** The service unreachable: every call fails at the transport level. *)
Definition offline_world : World :=
  {| environ := list_to_map settings;
     read_text := fun path => lookup_file path files;
     os_walk := os_walk (world 200);
     markdown_render := render;
     answer := fun _ _ => HttpFailure "connection refused";
     json_error_is_request_exception := true |}.

(** The environment with some settings removed. *)
Definition world_without (names : list string) : World :=
  {| environ := list_to_map (filter (fun kv => kv.1 ∉ names) settings);
     read_text := fun path => lookup_file path files;
     os_walk := os_walk (world 200);
     markdown_render := render;
     answer := service 200;
     json_error_is_request_exception := true |}.

(** [envs] as [load_environment_variables] builds it from [settings]. *)
Definition envs : gmap string string :=
  list_to_map (filter (fun kv => kv.1 ≠ "GITHUB_WORKSPACE") settings).

End Scenario.



(** ** Vocabulary of the further properties *)

(** [c in s] for a character [c]. *)
Fixpoint has_char (c : ascii) (s : string) : bool :=
  match s with
  | EmptyString => false
  | String d rest => Ascii.eqb d c || has_char c rest
  end.

(** The names [load_environment_variables] reads from the environment. *)
Definition setting_names : list string :=
  env_var_names ++ ["input_file"; "input_md_directory"; "exclude_files"].

Definition is_http (ev : event) : bool :=
  match ev with
  | EvHttp _ _ => true
  | _ => false
  end.

Definition is_open (ev : event) : bool :=
  match ev with
  | EvOpen _ => true
  | _ => false
  end.

(** [envs] holds the three settings [find_page_by_title] reads. *)
Definition has_credentials (envs : gmap string string)
    (cloud user token : string) : Prop :=
  envs !! "cloud" = Some cloud /\
  envs !! "user" = Some user /\
  envs !! "token" = Some token.

(** The scenario with a remote service that gives the same answer to every
    request. *)
Definition world_answering (res : http_result) : World :=
  {| environ := list_to_map Scenario.settings;
     read_text := fun path => Scenario.lookup_file path Scenario.files;
     os_walk := os_walk (Scenario.world 200);
     markdown_render := Scenario.render;
     answer := fun _ _ => res;
     json_error_is_request_exception := true |}.

(** The scenario with another directory to scan. *)
Definition world_with_directory (directory : string) : World :=
  {| environ := <["input_md_directory" := directory]> (list_to_map Scenario.settings);
     read_text := fun path => Scenario.lookup_file path Scenario.files;
     os_walk := os_walk (Scenario.world 200);
     markdown_render := Scenario.render;
     answer := Scenario.service 200;
     json_error_is_request_exception := true |}.
(** * Properties *)

(** ** Library functions on concrete inputs *)

Example endswith_md : PyString.endswith "notes.md" ".md" = true.
Proof. reflexivity. Qed.

Example endswith_short : PyString.endswith "md" ".md" = false.
Proof. reflexivity. Qed.

Example split_commas : PyString.split "," "a.md,,b.md" = ["a.md"; ""; "b.md"].
Proof. reflexivity. Qed.

Example join_relative : OsPath.join "/ws" "docs/a.md" = "/ws/docs/a.md".
Proof. reflexivity. Qed.

Example join_absolute : OsPath.join "/ws" "/etc/a.md" = "/etc/a.md".
Proof. reflexivity. Qed.

Example join_slash : OsPath.join "/ws/" "a.md" = "/ws/a.md".
Proof. reflexivity. Qed.

Example title_of_path :
  fst (OsPath.splitext (OsPath.basename "/ws/docs/read.me.md")) = "read.me".
Proof. reflexivity. Qed.

Example title_of_dotfile : fst (OsPath.splitext (OsPath.basename "/ws/.md")) = ".md".
Proof. reflexivity. Qed.

(** ** The lookup and what [process_file] does with its result *)

Ltac unfold_py :=
  cbv beta zeta delta [bind lift ret raise sys_exit print emit dict_getitem
    requests_call response_json open_read try_except] in *.

Lemma getitem_str_lookup_tuple (v : pyval) (key : string) :
  is_lookup_tuple v -> PyVal.getitem_str v key = Raise TypeError.
Proof. intros [-> | (a & b & c & ->)]; reflexivity. Qed.

Lemma find_page_by_title_result (w : World) (page_title : string)
    (envs : gmap string string) (tr : list event) :
  lookup_result w page_title tr (find_page_by_title w page_title envs tr).
Proof.
  unfold find_page_by_title.
  destruct (envs !! "cloud") as [cloud|] eqn:Hc; unfold_py; rewrite Hc;
    [| apply lookup_config].
  destruct (envs !! "user") as [user|] eqn:Hu; [| apply lookup_config].
  destruct (envs !! "token") as [token|] eqn:Ht; [| apply lookup_config].
  fold (lookup_request cloud user token page_title).
  destruct (remote w tr (lookup_request cloud user token page_title))
    as [msg | r |] eqn:Hr;
    [ by apply lookup_transport | | apply lookup_not_sent ].
  destruct (status_code r =? 200);
    [| apply lookup_returns; [done | by left]].
  destruct (json_body r) as [msg | data]; [ by apply lookup_bad_json |].
  repeat match goal with
  | |- context [match ?o with Ret _ => _ | Raise _ => _ end] =>
      let E := fresh "E" in
      destruct o as [?|e] eqn:E;
      [| apply lookup_bad_shape; [done |];
         repeat match goal with
         | H : PyVal.get ?x _ = Raise _ |- _ => destruct x; simplify_eq/=
         | H : PyVal.getitem_str ?x _ = Raise _ |- _ =>
             destruct x; simpl in H; repeat case_match; simplify_eq
         | H : PyVal.getitem_int ?x _ = Raise _ |- _ =>
             destruct x; unfold PyVal.getitem_int, PyVal.index_seq in H;
             repeat case_match; simplify_eq
         end; eauto ]
  | |- context [if ?b then _ else _] => destruct b
  end; apply lookup_returns; try done; [ right; eauto | by left ].
Qed.

Lemma process_file_result_holds (w : World) (md_file : string)
    (envs : gmap string string) (links : list string) (tr : list event) :
  process_file_result w md_file tr (process_file w md_file envs links tr).
Proof.
  unfold process_file, process_file_body, try_except, open_read, bind at 1 2, emit.
  destruct (read_text w md_file) as [text | |];
    [| by apply pf_before_lookup | by apply pf_before_lookup ].
  unfold ret at 1, bind at 1.
  pose proof (find_page_by_title_result w
    (fst (OsPath.splitext (OsPath.basename md_file))) envs
    (tr ++ [EvOpen md_file])) as Hlookup.
  destruct (find_page_by_title _ _ _ _) as [o tr1].
  inversion Hlookup as [key | cloud user token msg Hr | cloud user token r msg Hr
                       | cloud user token r e Hr He | cloud user token r v Hr Hv
                       | ];
    subst; simpl; rewrite <- ?app_assoc; simpl;
    [ | | | | | by apply pf_before_lookup ].
  - by apply pf_before_lookup.
  - unfold_py. rewrite <- app_assoc. by apply pf_transport.
  - destruct (json_error_is_request_exception w); unfold_py;
      rewrite <- ?app_assoc; simpl.
    + by apply pf_json_caught.
    + by apply pf_after_lookup.
  - assert (is_crash e /\ is_RequestException w e = false) as [Hcrash Hcatch]
      by (destruct He as [-> | [-> | [-> | [k ->]]]]; done).
    rewrite Hcatch. by apply pf_after_lookup.
  - unfold bind at 1, lift at 1.
    rewrite (getitem_str_lookup_tuple v _ Hv). simpl.
    by apply pf_after_lookup.
Qed.

(** [process_file] never returns: every call ends in an exception. *)
Lemma process_file_raises (w : World) (md_file : string)
    (envs : gmap string string) (links : list string) (tr : list event) :
  exists e tr', process_file w md_file envs links tr = (Raise e, tr').
Proof.
  destruct (process_file_result_holds w md_file envs links tr); eauto.
Qed.

(** ** Loading the configuration *)

Lemma is_set_false (w : World) (name : string) :
  is_set w name = false <->
  environ w !! name = None \/ environ w !! name = Some "".
Proof.
  unfold is_set. destruct (environ w !! name) as [[|c s]|]; simpl;
    intuition congruence.
Qed.

Lemma check_setting_present (w : World) (name : string)
    (envs : gmap string string) (tr : list event) :
  is_set w name = true ->
  check_setting w name envs tr =
    (Ret (<[name := default "" (environ w !! name)]> envs), tr).
Proof.
  unfold is_set, check_setting.
  destruct (environ w !! name) as [[|c s]|]; done.
Qed.

Lemma check_setting_missing (w : World) (name : string)
    (envs : gmap string string) (tr : list event) :
  is_set w name = false ->
  check_setting w name envs tr =
    (Raise (SystemExit 1), tr ++ [EvPrint (MissingValue name)]).
Proof.
  unfold is_set, check_setting.
  destruct (environ w !! name) as [[|c s]|]; done.
Qed.

Lemma validation_loop_present (w : World) (names : list string)
    (envs : gmap string string) (tr : list event) :
  forallb (is_set w) names = true ->
  for_each names (check_setting w) envs tr = (Ret (required_envs w names envs), tr).
Proof.
  revert envs. induction names as [| name names IH]; intros envs H.
  - reflexivity.
  - simpl in H. apply andb_prop in H as [Hname Hnames].
    simpl. unfold bind. rewrite check_setting_present by done. by apply IH.
Qed.

Lemma validation_loop_missing (w : World) (before after : list string)
    (first : string) (envs : gmap string string) (tr : list event) :
  forallb (is_set w) before = true ->
  is_set w first = false ->
  for_each (before ++ first :: after) (check_setting w) envs tr =
    (Raise (SystemExit 1), tr ++ [EvPrint (MissingValue first)]).
Proof.
  revert envs. induction before as [| name names IH]; intros envs H Hfirst.
  - simpl. unfold bind. by rewrite check_setting_missing.
  - simpl in H. apply andb_prop in H as [Hname Hnames].
    simpl. unfold bind. rewrite check_setting_present by done. by apply IH.
Qed.

(** A list with a missing setting splits at its first missing one. *)
Lemma first_missing_split (w : World) (names : list string) (name : string) :
  In name names -> is_set w name = false ->
  exists before first after,
    names = before ++ first :: after /\
    forallb (is_set w) before = true /\
    is_set w first = false.
Proof.
  induction names as [| n names IH]; intros Hin Hmiss; [ destruct Hin |].
  destruct (is_set w n) eqn:Hn.
  - destruct Hin as [-> | Hin]; [ congruence |].
    destruct (IH Hin Hmiss) as (before & first & after & -> & Hb & Hf).
    exists (n :: before), first, after. repeat split; [| done ].
    simpl. by rewrite Hn.
  - exists [], n, names. by repeat split.
Qed.

Lemma load_environment_variables_unfold (w : World) :
  load_environment_variables w =
    bind (for_each env_var_names (check_setting w) ∅)
      (fun envs =>
         ret (copy_if_present w "exclude_files"
                (copy_if_present w "input_md_directory"
                   (copy_if_present w "input_file" envs)))).
Proof. reflexivity. Qed.

Lemma load_environment_variables_present (w : World) (tr : list event) :
  required_settings_present w ->
  load_environment_variables w tr = (Ret (loaded_envs w), tr).
Proof.
  intros H. rewrite load_environment_variables_unfold. unfold bind.
  by rewrite validation_loop_present.
Qed.

Lemma load_environment_variables_missing (w : World) (before after : list string)
    (first : string) (tr : list event) :
  env_var_names = before ++ first :: after ->
  forallb (is_set w) before = true ->
  is_set w first = false ->
  load_environment_variables w tr =
    (Raise (SystemExit 1), tr ++ [EvPrint (MissingValue first)]).
Proof.
  intros Hsplit Hb Hf. rewrite load_environment_variables_unfold, Hsplit.
  unfold bind. by rewrite validation_loop_missing.
Qed.

(** The optional settings of the loaded dictionary are those of the
    environment. *)
Lemma required_envs_other (w : World) (names : list string)
    (envs : gmap string string) (key : string) :
  ~ In key names -> required_envs w names envs !! key = envs !! key.
Proof.
  revert envs. induction names as [| n names IH]; intros envs Hn; [ done |].
  simpl. rewrite IH by (intros ?; apply Hn; by right).
  apply lookup_insert_ne. intros ->. apply Hn. by left.
Qed.

Lemma loaded_envs_input_file (w : World) :
  loaded_envs w !! "input_file" = environ w !! "input_file".
Proof.
  unfold loaded_envs, copy_if_present.
  repeat case_match; rewrite ?lookup_insert_ne by done;
    rewrite ?lookup_insert_eq; try done;
    rewrite required_envs_other; try done;
    unfold env_var_names; simpl; intuition congruence.
Qed.

Lemma loaded_envs_input_md_directory (w : World) :
  loaded_envs w !! "input_md_directory" = environ w !! "input_md_directory".
Proof.
  unfold loaded_envs, copy_if_present.
  repeat case_match; rewrite ?lookup_insert_ne by done;
    rewrite ?lookup_insert_eq; try done;
    rewrite required_envs_other; try done;
    unfold env_var_names; simpl; intuition congruence.
Qed.

(** ** The directory loop *)

Lemma bind_raise {A B} (m : Py A) (k : A -> Py B) (tr tr' : list event) (e : exn) :
  m tr = (Raise e, tr') -> bind m k tr = (Raise e, tr').
Proof. unfold bind. by intros ->. Qed.

Lemma bind_ret {A B} (m : Py A) (k : A -> Py B) (tr tr' : list event) (a : A) :
  m tr = (Ret a, tr') -> bind m k tr = k a tr'.
Proof. unfold bind. by intros ->. Qed.

(** The inner loop stops at the first selected file, because
    [process_file] does not return. *)
Lemma files_loop (w : World) (envs : gmap string string)
    (exclude_files : list string) (root : string) (files : list string)
    (links : list string) (tr : list event) :
  for_each files (visit_file w envs exclude_files root) links tr =
    match find (selected exclude_files) files with
    | Some f => process_file w (OsPath.join root f) envs links tr
    | None => (Ret links, tr)
    end.
Proof.
  induction files as [| f files IH]; [ reflexivity |].
  simpl. unfold visit_file at 1. destruct (selected exclude_files f).
  - destruct (process_file_raises w (OsPath.join root f) envs links tr)
      as (e & tr' & Hpf).
    rewrite (bind_raise _ _ _ _ _ Hpf). by rewrite Hpf.
  - unfold bind, ret at 1. apply IH.
Qed.

Lemma walk_loop (w : World) (envs : gmap string string)
    (exclude_files : list string)
    (walk : list (string * list string * list string))
    (links : list string) (tr : list event) :
  for_each walk
    (fun '(root, _, files) links =>
       for_each files (visit_file w envs exclude_files root) links)
    links tr =
    match first_selected exclude_files walk with
    | Some md_file => process_file w md_file envs links tr
    | None => (Ret links, tr)
    end.
Proof.
  induction walk as [| [[root dirs] files] walk IH]; [ reflexivity |].
  simpl. unfold bind at 1. rewrite files_loop.
  destruct (find (selected exclude_files) files) as [f|].
  - destruct (process_file_raises w (OsPath.join root f) envs links tr)
      as (e & tr' & Hpf). by rewrite Hpf.
  - apply IH.
Qed.

Lemma process_directory_run (w : World) (envs : gmap string string)
    (links : list string) (tr : list event) (workspace directory : string) :
  environ w !! "GITHUB_WORKSPACE" = Some workspace ->
  envs !! "input_md_directory" = Some directory ->
  process_directory w envs links tr =
    match first_selected (exclude_list envs)
            (os_walk w (OsPath.join workspace directory)) with
    | Some md_file =>
        process_file w md_file envs links
          (tr ++ [EvWalk (OsPath.join workspace directory)])
    | None => (Ret links, tr ++ [EvWalk (OsPath.join workspace directory)])
    end.
Proof.
  intros Hws Hdir. unfold process_directory, dict_getitem.
  rewrite Hws, Hdir. unfold bind at 1 2 3, ret at 1 2, emit.
  apply (walk_loop w envs (exclude_list envs)).
Qed.

Lemma process_directory_no_workspace (w : World) (envs : gmap string string)
    (links : list string) (tr : list event) :
  environ w !! "GITHUB_WORKSPACE" = None ->
  process_directory w envs links tr = (Raise (KeyError "GITHUB_WORKSPACE"), tr).
Proof.
  intros Hws. unfold process_directory, dict_getitem. by rewrite Hws.
Qed.

(** ** The three modes of [main] *)

Lemma dict_contains_lookup (d : gmap string string) (key : string) :
  dict_contains d key = match d !! key with Some _ => true | None => false end.
Proof.
  unfold dict_contains. destruct (d !! key) eqn:H.
  - apply bool_decide_eq_true. eauto.
  - apply bool_decide_eq_false. by intros [? ?].
Qed.

Lemma run_single_file_mode (w : World) (input_file : string) :
  required_settings_present w ->
  environ w !! "input_file" = Some input_file ->
  run w =
    bind (workspace <- dict_getitem (environ w) "GITHUB_WORKSPACE" ;;
          process_file w (OsPath.join workspace input_file) (loaded_envs w) [])
         (fun links => print (LinkList links)) [].
Proof.
  intros Hreq Hfile. unfold run, main.
  rewrite (bind_ret _ _ _ _ _ (load_environment_variables_present w [] Hreq)).
  rewrite dict_contains_lookup, loaded_envs_input_file, Hfile.
  unfold dict_getitem at 2. rewrite loaded_envs_input_file, Hfile.
  reflexivity.
Qed.

Lemma run_directory_mode (w : World) :
  required_settings_present w ->
  environ w !! "input_file" = None ->
  is_Some (environ w !! "input_md_directory") ->
  run w =
    bind (process_directory w (loaded_envs w) [])
         (fun links => print (LinkList links)) [].
Proof.
  intros Hreq Hfile [d Hdir]. unfold run, main.
  rewrite (bind_ret _ _ _ _ _ (load_environment_variables_present w [] Hreq)).
  rewrite !dict_contains_lookup, loaded_envs_input_file, Hfile,
    loaded_envs_input_md_directory, Hdir.
  reflexivity.
Qed.

Lemma run_no_mode (w : World) :
  required_settings_present w ->
  environ w !! "input_file" = None ->
  environ w !! "input_md_directory" = None ->
  run w = (Raise (SystemExit 1), [EvPrint NoInputProvided]).
Proof.
  intros Hreq Hfile Hdir. unfold run, main.
  rewrite (bind_ret _ _ _ _ _ (load_environment_variables_present w [] Hreq)).
  rewrite !dict_contains_lookup, loaded_envs_input_file, Hfile,
    loaded_envs_input_md_directory, Hdir.
  reflexivity.
Qed.

Lemma run_missing (w : World) (name : string) :
  In name env_var_names -> is_set w name = false ->
  exists before first after,
    env_var_names = before ++ first :: after /\
    forallb (is_set w) before = true /\
    is_set w first = false /\
    run w = (Raise (SystemExit 1), [EvPrint (MissingValue first)]).
Proof.
  intros Hin Hmiss.
  destruct (first_missing_split w env_var_names name Hin Hmiss)
    as (before & first & after & Hsplit & Hb & Hf).
  exists before, first, after. repeat split; try done.
  unfold run, main. apply bind_raise.
  by rewrite (load_environment_variables_missing w before after first).
Qed.

(** Every run ends in one of the ways of [run_result]. *)
Lemma run_result_holds (w : World) : run_result w (run w).
Proof.
  destruct (forallb (is_set w) env_var_names) eqn:Hreq.
  - destruct (environ w !! "input_file") as [f|] eqn:Hfile.
    + rewrite (run_single_file_mode w f Hreq Hfile).
      unfold bind at 2, dict_getitem.
      destruct (environ w !! "GITHUB_WORKSPACE") as [ws|];
        [| apply run_no_workspace ].
      unfold ret at 1, bind.
      pose proof (process_file_result_holds w (OsPath.join ws f)
                    (loaded_envs w) [] []) as Hpf.
      destruct (process_file_raises w (OsPath.join ws f) (loaded_envs w) [] [])
        as (e & tr & Heq).
      rewrite Heq in *. by eapply run_single_file.
    + destruct (environ w !! "input_md_directory") as [d|] eqn:Hdir.
      * rewrite (run_directory_mode w Hreq Hfile) by (rewrite Hdir; eauto).
        destruct (environ w !! "GITHUB_WORKSPACE") as [ws|] eqn:Hws.
        -- unfold bind.
           rewrite (process_directory_run w _ _ _ ws d Hws)
             by (by rewrite loaded_envs_input_md_directory).
           destruct (first_selected _ _) as [md_file|];
             [| apply run_empty_directory ].
           pose proof (process_file_result_holds w md_file (loaded_envs w) []
                         ([] ++ [EvWalk (OsPath.join ws d)])) as Hpf.
           destruct (process_file_raises w md_file (loaded_envs w) []
                       ([] ++ [EvWalk (OsPath.join ws d)])) as (e & tr & Heq).
           rewrite Heq in *. by eapply run_directory.
        -- unfold bind. rewrite process_directory_no_workspace by done.
           apply run_no_workspace.
      * rewrite (run_no_mode w Hreq Hfile Hdir). apply run_no_input.
  - assert (exists name, In name env_var_names /\ is_set w name = false)
      as (name & Hin & Hmiss).
    { apply not_true_iff_false in Hreq.
      destruct (existsb (fun n => negb (is_set w n)) env_var_names) eqn:Hex.
      - apply existsb_exists in Hex as (n & Hin & Hn).
        exists n. split; [ done | by destruct (is_set w n) ].
      - exfalso. apply Hreq. apply forallb_forall. intros n Hin.
        destruct (is_set w n) eqn:Hn; [ done |].
        assert (existsb (fun n => negb (is_set w n)) env_var_names = true)
          by (apply existsb_exists; exists n; by rewrite Hn).
        congruence. }
    destruct (run_missing w name Hin Hmiss) as (? & first & ? & _ & _ & _ & ->).
    apply run_missing_setting.
Qed.

(** ** The defect: [process_file] subscripts a tuple with string keys *)

(** C4.  When the file is readable and the title lookup returns,
    [find_page_by_title] has returned a plain tuple (two [None], or three
    values); [process_file] subscripts it with the string key
    ["current_version"], which raises a [TypeError] that its handler does
    not catch.  The call has then opened the file and sent the lookup, and
    nothing else.  In no call at all does [process_file] return, send a
    create or update request, or report identical content. *)
Theorem process_file_subscripts_tuple (w : World) (md_file : string)
    (envs : gmap string string) (links : list string) (tr : list event)
    (text : string) (page_info : pyval) (tr' : list event) :
  read_text w md_file = ReadOk text ->
  find_page_by_title w (page_title_of md_file) envs (tr ++ [EvOpen md_file])
    = (Ret page_info, tr') ->
  is_lookup_tuple page_info /\
  PyVal.getitem_str page_info "current_version" = Raise TypeError /\
  is_RequestException w TypeError = false /\
  process_file w md_file envs links tr = (Raise TypeError, tr') /\
  (exists cloud user token r,
     tr' = tr ++ [EvOpen md_file;
                  EvHttp (lookup_request cloud user token (page_title_of md_file))
                         (HttpResponse r)]) /\
  (forall md_file' envs' links' tr0,
     exists e suffix,
       process_file w md_file' envs' links' tr0 = (Raise e, tr0 ++ suffix) /\
       Forall (fun ev => is_write ev = false /\
                         forall title, ev <> EvPrint (IdenticalContent title))
              suffix).
Proof.
  intros Hread Hfind.
  pose proof (find_page_by_title_result w (page_title_of md_file) envs
                (tr ++ [EvOpen md_file])) as Hres.
  rewrite Hfind in Hres.
  inversion Hres as [| | | | cloud user token r v Hr Hv |]; subst.
  split; [ done |].
  split; [ by apply getitem_str_lookup_tuple |].
  split; [ done |].
  split.
  - unfold process_file, process_file_body, try_except, open_read,
      bind at 1 2, emit.
    rewrite Hread. unfold ret at 1, bind at 1.
    fold (page_title_of md_file). rewrite Hfind.
    unfold bind at 1, lift at 1.
    by rewrite (getitem_str_lookup_tuple page_info _ Hv).
  - split.
    + exists cloud, user, token, r. by rewrite <- app_assoc.
    + intros md_file' envs' links' tr0.
      destruct (process_file_result_holds w md_file' envs' links' tr0)
        as [e He | req msg Hget | req r' msg Hget | req r' e Hget He];
        eexists; eexists; (split; [ reflexivity |]);
        repeat constructor; simpl; try rewrite Hget; done.
Qed.

Lemma process_file_subscripts_tuple_witness :
  process_file (Scenario.world 200) "/ws/docs/b.md" Scenario.envs [] []
    = (Raise TypeError,
       snd (find_page_by_title (Scenario.world 200) (page_title_of "/ws/docs/b.md")
              Scenario.envs ([] ++ [EvOpen "/ws/docs/b.md"]))).
Proof.
  refine (proj1 (proj2 (proj2 (proj2
    (process_file_subscripts_tuple (Scenario.world 200) "/ws/docs/b.md"
       Scenario.envs [] [] "beta"
       (PTuple [PStr "201"; PInt 3; PStr (Scenario.render "beta")]) _ _ _))))).
  - vm_compute. reflexivity.
  - vm_compute. reflexivity.
Defined.

(** ** Transport failures *)

(** C5.  If some HTTP call of a run fails at the transport level (a
    [RequestException]), the run ends with [SystemExit 1], hence exit
    status 1; the failed call and the line reporting it are the last two
    events of the run, so no document is processed after it; and the list
    of links is never printed. *)
Theorem transport_failure_is_fatal (w : World) (req : request) (msg : string) :
  In (EvHttp req (HttpFailure msg)) (snd (run w)) ->
  fst (run w) = Raise (SystemExit 1) /\
  exit_status (fst (run w)) = 1 /\
  (exists before,
     snd (run w) = before ++ [EvHttp req (HttpFailure msg);
                             EvPrint (HttpRequestError msg)]) /\
  (forall links, ~ In (EvPrint (LinkList links)) (snd (run w))).
Proof.
  pose proof (run_result_holds w) as Hrun.
  destruct (run w) as [o tr]. simpl. intros Hin.
  inversion Hrun as [name | | | md_file e tr0 Hpf | top md_file e tr0 Hpf | top];
    subst; simpl in Hin;
    try (inversion Hpf as [e' He | req' msg' Hget | req' r' msg' Hget
                          | req' r' e' Hget He]; subst; simpl in Hin);
    repeat match goal with
    | H : _ \/ _ |- _ => destruct H
    | H : False |- _ => destruct H
    | H : @eq event _ _ |- _ => discriminate H || (injection H as -> ->)
    end.
  - repeat split.
    + by exists [EvOpen md_file].
    + intros links Hl. simpl in Hl. intuition discriminate.
  - repeat split.
    + by exists [EvWalk top; EvOpen md_file].
    + intros links Hl. simpl in Hl. intuition discriminate.
Qed.

Lemma transport_failure_is_fatal_witness :
  fst (run Scenario.offline_world) = Raise (SystemExit 1).
Proof.
  refine (proj1 (transport_failure_is_fatal Scenario.offline_world
            (lookup_request "acme" "bot" "secret" "a") "connection refused" _)).
  vm_compute. right. right. left. reflexivity.
Defined.

(** ** Missing configuration *)

(** C7.  When a required setting is absent or empty, the run prints
    ["Missing value for <name>"] for the first such setting in the order
    cloud, user, token, parent_page_id, space_id, and ends with
    [SystemExit 1]; that line is the whole trace of the run, so no HTTP call
    was made and no file was opened. *)
Theorem missing_setting_terminates (w : World) (name : string) :
  In name env_var_names ->
  environ w !! name = None \/ environ w !! name = Some "" ->
  exists before first after,
    env_var_names = before ++ first :: after /\
    forallb (is_set w) before = true /\
    (environ w !! first = None \/ environ w !! first = Some "") /\
    run w = (Raise (SystemExit 1), [EvPrint (MissingValue first)]) /\
    message_text (MissingValue first) = "Missing value for " +:+ first /\
    exit_status (fst (run w)) = 1.
Proof.
  intros Hin Hmiss. apply is_set_false in Hmiss.
  destruct (run_missing w name Hin Hmiss)
    as (before & first & after & Hsplit & Hb & Hf & Hrun).
  exists before, first, after.
  repeat split; try done.
  - by apply is_set_false.
  - by rewrite Hrun.
Qed.

Lemma missing_setting_terminates_witness :
  exists before first after,
    env_var_names = before ++ first :: after /\
    forallb (is_set (Scenario.world_without ["token"; "space_id"])) before = true /\
    (environ (Scenario.world_without ["token"; "space_id"]) !! first = None \/
     environ (Scenario.world_without ["token"; "space_id"]) !! first = Some "") /\
    run (Scenario.world_without ["token"; "space_id"])
      = (Raise (SystemExit 1), [EvPrint (MissingValue first)]) /\
    message_text (MissingValue first) = "Missing value for " +:+ first /\
    exit_status (fst (run (Scenario.world_without ["token"; "space_id"]))) = 1.
Proof.
  apply (missing_setting_terminates
           (Scenario.world_without ["token"; "space_id"]) "space_id").
  - simpl. tauto.
  - left. vm_compute. reflexivity.
Defined.

Example first_missing_is_reported :
  run (Scenario.world_without ["token"; "space_id"])
    = (Raise (SystemExit 1), [EvPrint (MissingValue "token")]).
Proof. vm_compute. reflexivity. Qed.

(** ** Input modes *)

(** C9.  With the required settings present: if [input_file] is set
    (whatever [input_md_directory] is), the run is [process_file] on that
    file joined to the workspace root, followed by printing the links; it
    opens that file first and walks no directory.  If only
    [input_md_directory] is set, the run is [process_directory] followed by
    printing the links, and it starts by walking that directory.  If
    neither is set, the run prints ["No specific input provided."] and ends
    with [SystemExit 1] without any other event. *)
Theorem input_mode_selection (w : World) :
  required_settings_present w ->
  (forall input_file,
     environ w !! "input_file" = Some input_file ->
     run w =
       bind (workspace <- dict_getitem (environ w) "GITHUB_WORKSPACE" ;;
             process_file w (OsPath.join workspace input_file) (loaded_envs w) [])
            (fun links => print (LinkList links)) [] /\
     (forall top, ~ In (EvWalk top) (snd (run w))) /\
     (forall workspace,
        environ w !! "GITHUB_WORKSPACE" = Some workspace ->
        exists rest,
          snd (run w) = EvOpen (OsPath.join workspace input_file) :: rest)) /\
  (forall directory,
     environ w !! "input_file" = None ->
     environ w !! "input_md_directory" = Some directory ->
     run w =
       bind (process_directory w (loaded_envs w) [])
            (fun links => print (LinkList links)) [] /\
     (forall workspace,
        environ w !! "GITHUB_WORKSPACE" = Some workspace ->
        exists rest,
          snd (run w) = EvWalk (OsPath.join workspace directory) :: rest)) /\
  (environ w !! "input_file" = None ->
   environ w !! "input_md_directory" = None ->
   run w = (Raise (SystemExit 1), [EvPrint NoInputProvided]) /\
   exit_status (fst (run w)) = 1).
Proof.
  intros Hreq. split; [| split ].
  - intros f Hfile. split; [ by apply run_single_file_mode |].
    rewrite (run_single_file_mode w f Hreq Hfile).
    unfold bind at 2 4, dict_getitem.
    destruct (environ w !! "GITHUB_WORKSPACE") as [ws|].
    + unfold ret at 1 2, bind.
      destruct (process_file_result_holds w (OsPath.join ws f) (loaded_envs w) [] [])
        as [e He | req msg Hget | req r' msg Hget | req r' e Hget He]; simpl;
        (split; [ intros top Hin; simpl in Hin; intuition discriminate
                | intros ws' Hws; simplify_eq; eauto ]).
    + simpl. split; [ tauto | intros; discriminate ].
  - intros d Hfile Hdir.
    assert (is_Some (environ w !! "input_md_directory")) as Hsome
      by (rewrite Hdir; eauto).
    split; [ by apply run_directory_mode |].
    intros ws Hws. rewrite (run_directory_mode w Hreq Hfile Hsome).
    unfold bind.
    rewrite (process_directory_run w _ _ _ ws d Hws)
      by (by rewrite loaded_envs_input_md_directory).
    destruct (first_selected _ _) as [md_file|]; [| simpl; eauto ].
    destruct (process_file_result_holds w md_file (loaded_envs w) []
                ([] ++ [EvWalk (OsPath.join ws d)]))
      as [e He | req msg Hget | req r' msg Hget | req r' e Hget He]; simpl; eauto.
  - intros Hfile Hdir. rewrite (run_no_mode w Hreq Hfile Hdir). done.
Qed.

Lemma input_mode_selection_witness :
  run (Scenario.world_without ["input_md_directory"])
    = (Raise (SystemExit 1), [EvPrint NoInputProvided]).
Proof.
  refine (proj1 (proj2 (proj2
    (input_mode_selection (Scenario.world_without ["input_md_directory"]) _)) _ _)).
  - vm_compute. reflexivity.
  - vm_compute. reflexivity.
  - vm_compute. reflexivity.
Defined.

Example scenario_loaded_envs : loaded_envs (Scenario.world 200) = Scenario.envs.
Proof. vm_compute. reflexivity. Qed.

Example single_file_takes_precedence :
  exists lookup,
    run (Scenario.single_file_world "docs/c.md" 200)
      = (Raise TypeError, [EvOpen "/ws/docs/c.md"; lookup]).
Proof. eexists. vm_compute. reflexivity. Qed.

(** ** The workspace root *)

(** C10.  [GITHUB_WORKSPACE] is not among the settings
    [load_environment_variables] checks.  When it is absent while the
    required settings are present and an input mode is configured, loading
    succeeds without any diagnostic, and the run ends with an uncaught
    [KeyError] for ["GITHUB_WORKSPACE"], having printed nothing: it does not
    end through [sys.exit]. *)
Theorem missing_workspace_raises_key_error (w : World) :
  required_settings_present w ->
  environ w !! "GITHUB_WORKSPACE" = None ->
  dict_contains (environ w) "input_file"
    || dict_contains (environ w) "input_md_directory" = true ->
  ~ In "GITHUB_WORKSPACE" env_var_names /\
  load_environment_variables w [] = (Ret (loaded_envs w), []) /\
  run w = (Raise (KeyError "GITHUB_WORKSPACE"), []) /\
  (forall code, fst (run w) <> Raise (SystemExit code)) /\
  (forall name, ~ In (EvPrint (MissingValue name)) (snd (run w))).
Proof.
  intros Hreq Hws Hmode.
  assert (run w = (Raise (KeyError "GITHUB_WORKSPACE"), [])) as Hrun.
  { rewrite !dict_contains_lookup in Hmode.
    destruct (environ w !! "input_file") as [f|] eqn:Hfile.
    - rewrite (run_single_file_mode w f Hreq Hfile).
      unfold bind, dict_getitem. by rewrite Hws.
    - destruct (environ w !! "input_md_directory") as [d|] eqn:Hdir;
        [| discriminate ].
      rewrite (run_directory_mode w Hreq Hfile) by (rewrite Hdir; eauto).
      unfold bind. by rewrite process_directory_no_workspace. }
  split; [ simpl; intuition discriminate |].
  split; [ by apply load_environment_variables_present |].
  split; [ done |].
  rewrite Hrun. simpl. split; [ intros code; discriminate | tauto ].
Qed.

Lemma missing_workspace_raises_key_error_witness :
  run (Scenario.world_without ["GITHUB_WORKSPACE"])
    = (Raise (KeyError "GITHUB_WORKSPACE"), []).
Proof.
  refine (proj1 (proj2 (proj2
    (missing_workspace_raises_key_error
       (Scenario.world_without ["GITHUB_WORKSPACE"]) _ _ _)))).
  - vm_compute. reflexivity.
  - vm_compute. reflexivity.
  - vm_compute. reflexivity.
Defined.

(** ** What the defect does to the publishing paths

    The scenario of the specification, evaluated.  In each case the lookup
    answers as the property assumes, and [process_file] ends in the
    [TypeError] of C4 before it compares, creates or updates anything. *)

(** C1.  [b.md] renders to exactly the content stored for the remote page
    titled [b].  [process_file] sends no write call, but it does not report
    that no update is required either: it raises [TypeError] right after
    the lookup, and the run that meets this file exits with status 1. *)
Theorem identical_content_raises_type_error :
  let w := Scenario.world 200 in
  let html := markdown_render w "beta" in
  read_text w "/ws/docs/b.md" = ReadOk "beta" /\
  fst (find_page_by_title w "b" Scenario.envs [EvOpen "/ws/docs/b.md"])
    = Ret (PTuple [PStr "201"; PInt 3; PStr html]) /\
  PyVal.str_ne html (PStr html) = false /\
  exists lookup,
    process_file w "/ws/docs/b.md" Scenario.envs [] []
      = (Raise TypeError, [EvOpen "/ws/docs/b.md"; lookup]) /\
    is_write lookup = false /\
    is_print lookup = false /\
    ~ In (EvPrint (IdenticalContent "b")) [EvOpen "/ws/docs/b.md"; lookup].
Proof.
  vm_compute. repeat split. eexists. repeat split.
  intros [H | [H | []]]; discriminate H.
Qed.

(** C2.  [c.md] renders to content that differs from what is stored for the
    remote page titled [c] (version 5).  [process_file] sends no update
    call: the only HTTP call is the lookup, then [TypeError]. *)
Theorem changed_content_raises_type_error :
  let w := Scenario.world 200 in
  let html := markdown_render w "gamma" in
  read_text w "/ws/docs/c.md" = ReadOk "gamma" /\
  fst (find_page_by_title w "c" Scenario.envs [EvOpen "/ws/docs/c.md"])
    = Ret (PTuple [PStr "202"; PInt 5; PStr "<p>old</p>"]) /\
  PyVal.str_ne html (PStr "<p>old</p>") = true /\
  exists lookup,
    process_file w "/ws/docs/c.md" Scenario.envs [] []
      = (Raise TypeError, [EvOpen "/ws/docs/c.md"; lookup]) /\
    is_write lookup = false /\
    length (filter (fun ev => is_write ev = true)
                   [EvOpen "/ws/docs/c.md"; lookup]) = 0%nat.
Proof.
  vm_compute. repeat split. eexists. repeat split.
Qed.

(** C3.  The lookup for [a.md] succeeds with an empty match list, and
    [find_page_by_title] returns two [None].  [process_file] sends no
    create call: it raises [TypeError], which ends the process with exit
    status 1, so the lookup miss is fatal. *)
Theorem new_page_raises_type_error :
  let w := Scenario.world 200 in
  read_text w "/ws/docs/a.md" = ReadOk "alpha" /\
  find_page_by_title w "a" Scenario.envs [EvOpen "/ws/docs/a.md"]
    = (Ret (PTuple [PNone; PNone]),
       [EvOpen "/ws/docs/a.md";
        EvHttp (lookup_request "acme" "bot" "secret" "a") Scenario.no_match]) /\
  process_file w "/ws/docs/a.md" Scenario.envs [] []
    = (Raise TypeError,
       [EvOpen "/ws/docs/a.md";
        EvHttp (lookup_request "acme" "bot" "secret" "a") Scenario.no_match]) /\
  is_write (EvHttp (lookup_request "acme" "bot" "secret" "a") Scenario.no_match)
    = false /\
  exit_status (fst (process_file w "/ws/docs/a.md" Scenario.envs [] [])) = 1.
Proof.
  vm_compute. repeat split.
Qed.

(** ** Failed write calls *)

Lemma process_file_body_publish (w : World) (md_file : string)
    (envs : gmap string string) (links : list string) :
  process_file_body w md_file envs links =
    bind (open_read w md_file)
      (fun md =>
         bind (find_page_by_title w (page_title_of md_file) envs)
           (fun page_info =>
              publish_page w envs links (page_title_of md_file)
                (markdown_render w md) page_info)).
Proof. reflexivity. Qed.





Example failed_update_trace :
  publish_page (Scenario.world 403) Scenario.envs [] "c" (Scenario.render "gamma")
    (PDict [("current_version", PInt 5); ("page_id", PStr "202");
            ("existing_content", PStr "<p>old</p>")]) []
  = (Ret [],
     [EvHttp
        {| req_method := PUT;
           req_url := "https://acme.atlassian.net/wiki/api/v2/pages/202";
           req_params := [];
           req_json := Some (PDict
             [("id", PStr "202"); ("status", PStr "current");
              ("version", PDict [("number", PInt 6)]);
              ("title", PStr "c");
              ("body", PDict [("value", PStr (Scenario.render "gamma"));
                              ("representation", PStr "storage")])]);
           req_auth := ("bot", "secret");
           req_headers := [("Content-Type", "application/json")];
           req_timeout := 10 |}
        (Scenario.written 403);
      EvPrint (Failed "c" 403)]).
Proof. vm_compute. reflexivity. Qed.

Example failed_create_trace :
  exists create,
    publish_page (Scenario.world 500) Scenario.envs [] "a" (Scenario.render "alpha")
      (PDict [("current_version", PNone); ("page_id", PNone)]) []
    = (Ret [], [create; EvPrint (Failed "a" 500)]) /\
    is_write create = true.
Proof. eexists. vm_compute. split; reflexivity. Qed.

(** ** Credentials that cannot be encoded *)

(** The service never answers credentials that basic authentication cannot
    encode: with the token [U+20AC] the lookup raises [UnicodeEncodeError]
    and the trace holds the opening of the file only. *)
Example euro_token_is_not_sent :
  process_file (Scenario.world 200) "/ws/docs/a.md"
    (<["token" := String "226" (String "130" (String "172" ""))]> Scenario.envs)
    [] []
  = (Raise UnicodeEncodeError, [EvOpen "/ws/docs/a.md"]).
Proof. vm_compute. reflexivity. Qed.

Example latin1_token_is_sent :
  exists lookup,
    process_file (Scenario.world 200) "/ws/docs/a.md"
      (<["token" := String "195" (String "169" "")]> Scenario.envs) [] []
    = (Raise TypeError, [EvOpen "/ws/docs/a.md"; lookup]).
Proof. eexists. vm_compute. reflexivity. Qed.

(** In a whole run the write call is never reached.  With a remote service
    that answers every write call with status 403 and [c.md] having a remote
    page with other content, no failure line is printed for [c]:
    [process_file] raises [TypeError] before any write call, and the run
    over the directory ends at its first document with exit status 1. *)
Theorem failed_write_raises_type_error :
  let w := Scenario.world 403 in
  remote w [] {| req_method := PUT; req_url := ""; req_params := [];
                 req_json := None; req_auth := ("bot", "secret");
                 req_headers := []; req_timeout := 10 |}
    = Scenario.written 403 /\
  exists lookup,
    process_file w "/ws/docs/c.md" Scenario.envs [] []
      = (Raise TypeError, [EvOpen "/ws/docs/c.md"; lookup]) /\
    is_write lookup = false /\
    ~ In (EvPrint (Failed "c" 403)) [EvOpen "/ws/docs/c.md"; lookup] /\
    exit_status (fst (process_file w "/ws/docs/c.md" Scenario.envs [] [])) = 1 /\
    fst (run w) = Raise TypeError /\
    ~ In (EvOpen "/ws/docs/c.md") (snd (run w)).
Proof.
  vm_compute. split; [ reflexivity |]. eexists. repeat split.
  - intros [H | [H | []]]; discriminate H.
  - intros [H | [H | [H | []]]]; discriminate H.
Qed.

(** C8.  The walked directory holds [a.md], [b.md], [c.md], [excluded.md]
    and [notes.txt], and the exclusion list is [excluded.md].  The test of
    the loop selects [a.md], [b.md] and [c.md], as the property says, but
    only [a.md] is processed: the [TypeError] raised for it leaves
    [process_directory], and [b.md] and [c.md] are never opened. *)
Theorem directory_run_stops_at_first_file :
  let w := Scenario.world 200 in
  os_walk w "/ws/docs"
    = [("/ws/docs", [], ["a.md"; "b.md"; "c.md"; "excluded.md"; "notes.txt"])] /\
  filter (fun f => selected (exclude_list Scenario.envs) f = true)
         ["a.md"; "b.md"; "c.md"; "excluded.md"; "notes.txt"]
    = ["a.md"; "b.md"; "c.md"] /\
  exists lookup,
    run w = (Raise TypeError,
             [EvWalk "/ws/docs"; EvOpen "/ws/docs/a.md"; lookup]) /\
    is_write lookup = false /\
    ~ In (EvOpen "/ws/docs/b.md") (snd (run w)) /\
    ~ In (EvOpen "/ws/docs/c.md") (snd (run w)).
Proof.
  vm_compute. repeat split. eexists. repeat split.
  - intros [H | [H | [H | []]]]; discriminate H.
  - intros [H | [H | [H | []]]]; discriminate H.
Qed.

(** In general a directory run opens at most the first selected file. *)
Lemma process_directory_first_selected_only (w : World)
    (envs : gmap string string) (links : list string) (tr : list event)
    (workspace directory : string) :
  environ w !! "GITHUB_WORKSPACE" = Some workspace ->
  envs !! "input_md_directory" = Some directory ->
  forall path,
    In (EvOpen path) (snd (process_directory w envs links tr)) ->
    In (EvOpen path) tr \/
    first_selected (exclude_list envs)
      (os_walk w (OsPath.join workspace directory)) = Some path.
Proof.
  intros Hws Hdir path.
  rewrite (process_directory_run w envs links tr workspace directory Hws Hdir).
  destruct (first_selected _ _) as [md_file|].
  - destruct (process_file_result_holds w md_file envs links
                (tr ++ [EvWalk (OsPath.join workspace directory)]))
      as [e He | req msg Hget | req r' msg Hget | req r' e Hget He]; simpl;
      rewrite !in_app_iff; simpl; intuition (try discriminate); simplify_eq; eauto.
  - simpl. rewrite in_app_iff. simpl. intuition discriminate.
Qed.

(** * Further properties *)

(** ** Strings *)

Lemma string_app_nil (b : string) : "" +:+ b = b.
Proof. reflexivity. Qed.

Lemma string_app_cons (x : ascii) (a b : string) :
  String x a +:+ b = String x (a +:+ b).
Proof. reflexivity. Qed.

Ltac str_simpl := rewrite ?string_app_nil, ?string_app_cons; simpl.

Lemma string_app_assoc (a b c : string) : (a +:+ b) +:+ c = a +:+ (b +:+ c).
Proof. induction a as [| x a IH]; str_simpl; [ done | by rewrite IH ]. Qed.

Lemma string_app_length (a b : string) :
  String.length (a +:+ b) = (String.length a + String.length b)%nat.
Proof. induction a as [| x a IH]; str_simpl; [ done | by rewrite IH ]. Qed.

Lemma substring_whole (s : string) : substring 0 (String.length s) s = s.
Proof. induction s as [| c s IH]; simpl; [ done | by rewrite IH ]. Qed.

Lemma substring_skip (a b : string) (m : nat) :
  substring (String.length a) m (a +:+ b) = substring 0 m b.
Proof. induction a as [| x a IH]; str_simpl; [ done | apply IH ]. Qed.

Lemma substring_take (a b : string) :
  substring 0 (String.length a) (a +:+ b) = a.
Proof.
  induction a as [| x a IH]; str_simpl; [ by destruct b | by rewrite IH ].
Qed.

Lemma substring_split (s : string) (k : nat) :
  (k <= String.length s)%nat ->
  substring 0 k s +:+ substring k (String.length s - k) s = s.
Proof.
  revert k. induction s as [| c s IH]; intros k Hk.
  - simpl in Hk. by replace k with 0%nat by lia.
  - destruct k as [| k]; simpl; str_simpl.
    + by rewrite substring_whole.
    + rewrite IH; [ done | simpl in Hk; lia ].
Qed.

(** [s.endswith(suffix)] holds exactly when [s] is some string followed by
    [suffix]. *)
Lemma endswith_spec (s suffix : string) :
  PyString.endswith s suffix = true <-> exists stem, s = stem +:+ suffix.
Proof.
  unfold PyString.endswith. split.
  - destruct (_ <=? _)%nat eqn:Hle; [| discriminate ].
    apply Nat.leb_le in Hle. intros Heq. apply String.eqb_eq in Heq.
    exists (substring 0 (String.length s - String.length suffix) s).
    remember (String.length s - String.length suffix)%nat as k eqn:Hk.
    assert (String.length suffix = String.length s - k)%nat as Hm by lia.
    rewrite Hm in Heq. rewrite <- Heq.
    symmetry. apply substring_split. lia.
  - intros [stem ->]. rewrite string_app_length.
    replace (_ <=? _)%nat with true by (symmetry; apply Nat.leb_le; lia).
    replace (String.length stem + String.length suffix - String.length suffix)%nat
      with (String.length stem) by lia.
    rewrite substring_skip, substring_whole. apply String.eqb_refl.
Qed.

Lemma has_char_app (c : ascii) (a b : string) :
  has_char c (a +:+ b) = has_char c a || has_char c b.
Proof.
  induction a as [| x a IH]; str_simpl; [ done |].
  rewrite IH. by rewrite orb_assoc.
Qed.

Lemma rfind_from_absent (c : ascii) (s : string) (i found : Z) :
  has_char c s = false -> PyString.rfind_from c s i found = found.
Proof.
  revert i found. induction s as [| d s IH]; intros i found H; simpl in *.
  - done.
  - apply orb_false_elim in H as [Hd Hs]. rewrite Hd. by apply IH.
Qed.

Lemma rfind_from_last (c : ascii) (a b : string) (i found : Z) :
  has_char c b = false ->
  PyString.rfind_from c (a +:+ String c b) i found
    = i + Z.of_nat (String.length a).
Proof.
  intros Hb. revert i found. induction a as [| d a IH]; intros i found; str_simpl.
  - rewrite Ascii.eqb_refl. rewrite rfind_from_absent by done. lia.
  - rewrite IH. lia.
Qed.

(** No part of a split contains the separator. *)
Lemma split_parts_no_separator (sep : ascii) (s part : string) :
  In part (PyString.split sep s) -> has_char sep part = false.
Proof.
  revert part. induction s as [| c s IH]; intros part Hin; simpl in Hin.
  - destruct Hin as [<- | []]. done.
  - destruct (Ascii.eqb c sep) eqn:Hc.
    + destruct Hin as [<- | Hin]; [ done | by apply IH ].
    + destruct (PyString.split sep s) as [| hd tl] eqn:Hsplit.
      * destruct Hin as [<- | []]. simpl. by rewrite Hc.
      * destruct Hin as [<- | Hin].
        -- simpl. rewrite Hc. apply IH. by left.
        -- apply IH. by right.
Qed.

(** ** Which files a directory run selects *)

(** X1.  The test of [process_directory] accepts a name exactly when it is
    some string followed by [.md] and is not one of the excluded names. *)
Theorem selected_iff (exclude_files : list string) (f : string) :
  selected exclude_files f = true <->
  (exists stem, f = stem +:+ ".md") /\ ~ In f exclude_files.
Proof.
  unfold selected. rewrite andb_true_iff, endswith_spec, negb_true_iff.
  rewrite bool_decide_eq_false, list_elem_of_In. tauto.
Qed.

(** X2.  The exclusion list is the setting split at commas, so none of its
    entries contains a comma: a file whose name contains a comma cannot be
    excluded, and is selected whenever it ends in [.md]. *)
Theorem comma_name_cannot_be_excluded (envs : gmap string string) (f : string) :
  has_char "," f = true ->
  ~ In f (exclude_list envs) /\
  selected (exclude_list envs) f = PyString.endswith f ".md".
Proof.
  intros Hcomma.
  assert (~ In f (exclude_list envs)) as Hnot.
  { unfold exclude_list. intros Hin.
    destruct (envs !! "exclude_files") as [v|]; [| destruct Hin ].
    destruct (negb (PyString.is_empty v)); [| destruct Hin ].
    apply split_parts_no_separator in Hin. congruence. }
  split; [ done |].
  unfold selected.
  rewrite (bool_decide_eq_false_2 (f ∈ exclude_list envs))
    by (by rewrite list_elem_of_In).
  apply andb_true_r.
Qed.

Lemma comma_name_cannot_be_excluded_witness :
  selected (exclude_list Scenario.envs) "a,b.md" = PyString.endswith "a,b.md" ".md".
Proof.
  refine (proj2 (comma_name_cannot_be_excluded Scenario.envs "a,b.md" _)).
  vm_compute. reflexivity.
Defined.

(** ** The title of a file *)

Lemma basename_no_slash (f : string) :
  has_char "/" f = false -> OsPath.basename f = f.
Proof.
  intros H. unfold OsPath.basename, PyString.rfind, PyString.slice_from.
  rewrite rfind_from_absent by done. simpl.
  rewrite Nat.sub_0_r. apply substring_whole.
Qed.

Lemma basename_after_slash (dir f : string) :
  has_char "/" f = false -> OsPath.basename (dir +:+ String "/" f) = f.
Proof.
  intros H. unfold OsPath.basename, PyString.rfind, PyString.slice_from.
  rewrite rfind_from_last by done.
  replace (Z.to_nat (0 + Z.of_nat (String.length dir) + 1))
    with (String.length (dir +:+ "/"))
    by (rewrite string_app_length; simpl; lia).
  change (String "/" f) with ("/" +:+ f).
  rewrite <- string_app_assoc, substring_skip.
  rewrite (string_app_length (dir +:+ "/") f).
  replace (String.length (dir +:+ "/") + String.length f
           - String.length (dir +:+ "/"))%nat
    with (String.length f) by lia.
  apply substring_whole.
Qed.

Lemma startswith_slash (f : string) :
  has_char "/" f = false -> PyString.startswith f "/" = false.
Proof.
  unfold PyString.startswith. destruct f as [| c f]; [ done |].
  intros H. simpl in H. apply orb_false_elim in H as [Hc _].
  change (String.prefix "/" (String c f))
    with (if ascii_dec "/" c then String.prefix "" f else false).
  destruct (ascii_dec "/" c) as [<- | _]; [| done ].
  by rewrite Ascii.eqb_refl in Hc.
Qed.

Lemma join_shape (root f : string) :
  has_char "/" f = false ->
  OsPath.join root f = f \/ exists dir, OsPath.join root f = dir +:+ String "/" f.
Proof.
  intros H. unfold OsPath.join. rewrite startswith_slash by done.
  destruct (PyString.is_empty root) eqn:Hempty.
  - left. by destruct root.
  - simpl. destruct (PyString.endswith root "/") eqn:Hends.
    + apply endswith_spec in Hends as [dir ->]. right. exists dir.
      by rewrite string_app_assoc.
    + right. by exists root.
Qed.

Lemma basename_join (root f : string) :
  has_char "/" f = false -> OsPath.basename (OsPath.join root f) = f.
Proof.
  intros H. destruct (join_shape root f H) as [-> | [dir ->]].
  - by apply basename_no_slash.
  - by apply basename_after_slash.
Qed.

Lemma splitext_md (stem : string) :
  has_char "/" stem = false ->
  fst (OsPath.splitext (stem +:+ ".md"))
    = if PyString.all_dots stem then stem +:+ ".md" else stem.
Proof.
  intros H. unfold OsPath.splitext, PyString.rfind.
  rewrite (rfind_from_absent "/") by (by rewrite has_char_app, H).
  change (stem +:+ ".md") with (stem +:+ String "." "md").
  rewrite (rfind_from_last ".") by done.
  replace (-1 <? 0 + Z.of_nat (String.length stem)) with true
    by (symmetry; apply Z.ltb_lt; lia).
  replace (Z.to_nat (0 + Z.of_nat (String.length stem) - (-1 + 1)))
    with (String.length stem) by lia.
  change (Z.to_nat (-1 + 1)) with 0%nat.
  rewrite substring_take.
  destruct (PyString.all_dots stem); [ done |].
  unfold PyString.slice_to. simpl.
  replace (Z.to_nat (0 + Z.of_nat (String.length stem)))
    with (String.length stem) by lia.
  apply substring_take.
Qed.

(** X3.  For a file [stem.md] found in a directory [root], the page title
    is [stem], whatever [root] is, so files of the same name in different
    directories have the same title; except that when [stem] is empty or
    consists of dots only, the title is the whole name, extension
    included. *)
Theorem title_of_markdown_file (root stem : string) :
  has_char "/" stem = false ->
  page_title_of (OsPath.join root (stem +:+ ".md"))
    = if PyString.all_dots stem then stem +:+ ".md" else stem.
Proof.
  intros H. unfold page_title_of.
  rewrite basename_join by (by rewrite has_char_app, H).
  by apply splitext_md.
Qed.

Lemma title_of_markdown_file_witness :
  page_title_of (OsPath.join "/ws/docs/guide" ("read.me" +:+ ".md")) = "read.me".
Proof.
  refine (title_of_markdown_file "/ws/docs/guide" "read.me" _).
  vm_compute. reflexivity.
Defined.

(** ** The loaded configuration *)

Lemma is_set_lookup (w : World) (name : string) :
  is_set w name = true ->
  exists v, environ w !! name = Some v /\ v <> "".
Proof.
  unfold is_set. destruct (environ w !! name) as [[|c s]|]; try done.
  intros _. by eexists.
Qed.

Lemma required_envs_lookup_in (w : World) (names : list string)
    (envs : gmap string string) (key : string) :
  In key names ->
  required_envs w names envs !! key = Some (default "" (environ w !! key)).
Proof.
  revert envs. induction names as [| n names IH]; intros envs Hin; [ destruct Hin |].
  simpl. destruct (in_dec string_dec key names) as [Hin' | Hnot].
  - by apply IH.
  - destruct Hin as [-> | Hin]; [| done ].
    rewrite required_envs_other by done. apply lookup_insert_eq.
Qed.

Lemma copy_if_present_lookup (w : World) (name key : string)
    (envs : gmap string string) :
  copy_if_present w name envs !! key =
    if decide (key = name)
    then match environ w !! name with
         | Some v => Some v
         | None => envs !! name
         end
    else envs !! key.
Proof.
  unfold copy_if_present. destruct (decide (key = name)) as [-> | Hne].
  - destruct (environ w !! name); [ apply lookup_insert_eq | done ].
  - destruct (environ w !! name); [ by apply lookup_insert_ne | done ].
Qed.

Lemma forallb_is_set_lookup (w : World) (names : list string) (key : string) :
  forallb (is_set w) names = true -> In key names ->
  Some (default "" (environ w !! key)) = environ w !! key.
Proof.
  intros Hall Hin. rewrite forallb_forall in Hall.
  destruct (is_set_lookup w key (Hall key Hin)) as (v & -> & _). done.
Qed.

Lemma loaded_envs_lookup (w : World) (key : string) :
  required_settings_present w ->
  loaded_envs w !! key =
    if bool_decide (key ∈ setting_names) then environ w !! key else None.
Proof.
  intros Hreq. unfold loaded_envs. rewrite !copy_if_present_lookup.
  assert (forall name, ~ In name env_var_names ->
            required_envs w env_var_names ∅ !! name = None) as Hother
    by (intros name Hn; by rewrite required_envs_other).
  assert (forall name, In name ["input_file"; "input_md_directory"; "exclude_files"] ->
            ~ In name env_var_names) as Hopt
    by (intros name Hn; simpl in *; intuition congruence).
  destruct (decide (key = "exclude_files")) as [-> | H1];
    [| destruct (decide (key = "input_md_directory")) as [-> | H2];
       [| destruct (decide (key = "input_file")) as [-> | H3] ] ].
  - rewrite bool_decide_eq_true_2
      by (apply list_elem_of_In; simpl; tauto).
    destruct (environ w !! "exclude_files"); [ done |].
    repeat case_decide; try done; apply Hother, Hopt; simpl; tauto.
  - rewrite bool_decide_eq_true_2
      by (apply list_elem_of_In; simpl; tauto).
    destruct (environ w !! "input_md_directory"); [ done |].
    repeat case_decide; try done; apply Hother, Hopt; simpl; tauto.
  - rewrite bool_decide_eq_true_2
      by (apply list_elem_of_In; simpl; tauto).
    destruct (environ w !! "input_file"); [ done |].
    apply Hother, Hopt. simpl; tauto.
  - destruct (in_dec string_dec key env_var_names) as [Hin | Hnot].
    + rewrite bool_decide_eq_true_2
        by (apply list_elem_of_In, in_or_app; by left).
      rewrite required_envs_lookup_in by done.
      by apply (forallb_is_set_lookup w env_var_names).
    + rewrite bool_decide_eq_false_2.
      * by apply Hother.
      * rewrite list_elem_of_In. intros [Hin | Hin]%in_app_or; [ done |].
        simpl in Hin. intuition congruence.
Qed.

(** X4.  When every required setting is present and not empty,
    [load_environment_variables] prints nothing and returns a dictionary
    that holds exactly the eight settings it knows, each with the value of
    the environment when the environment has it; no other environment
    variable (such as [GITHUB_WORKSPACE]) is copied, and an optional setting
    that is set to the empty string is copied as it is. *)
Theorem load_environment_variables_restricts_environment (w : World)
    (tr : list event) :
  required_settings_present w ->
  exists envs,
    load_environment_variables w tr = (Ret envs, tr) /\
    (forall key,
       envs !! key =
         if bool_decide (key ∈ setting_names) then environ w !! key else None) /\
    envs !! "GITHUB_WORKSPACE" = None.
Proof.
  intros Hreq. exists (loaded_envs w).
  split; [ by apply load_environment_variables_present |].
  split; [ intros key; by apply loaded_envs_lookup |].
  by rewrite loaded_envs_lookup.
Qed.

Lemma load_environment_variables_restricts_environment_witness :
  exists envs,
    load_environment_variables (Scenario.world 200) [] = (Ret envs, []) /\
    (forall key,
       envs !! key =
         if bool_decide (key ∈ setting_names)
         then environ (Scenario.world 200) !! key else None) /\
    envs !! "GITHUB_WORKSPACE" = None.
Proof.
  apply (load_environment_variables_restricts_environment (Scenario.world 200) []).
  vm_compute. reflexivity.
Defined.

(** ** What the title lookup returns *)

Ltac lookup_start Hcred Hremote :=
  unfold find_page_by_title;
  destruct Hcred as (Hcloud & Huser & Htoken);
  unfold_py; rewrite Hcloud, Huser, Htoken;
  match type of Hremote with
  | remote _ _ (lookup_request ?c ?u ?k ?t) = _ =>
      fold (lookup_request c u k t); rewrite Hremote
  end.

Lemma find_page_by_title_trace (w : World) (page_title : string)
    (envs : gmap string string) (tr : list event) (cloud user token : string) :
  has_credentials envs cloud user token ->
  snd (find_page_by_title w page_title envs tr)
    = match remote w tr (lookup_request cloud user token page_title) with
      | HttpNotSent => tr
      | res => tr ++ [EvHttp (lookup_request cloud user token page_title) res]
      end.
Proof.
  intros (Hcloud & Huser & Htoken). unfold find_page_by_title.
  unfold_py. rewrite Hcloud, Huser, Htoken.
  fold (lookup_request cloud user token page_title).
  destruct (remote w tr (lookup_request cloud user token page_title))
    as [msg | r |]; [ reflexivity | | reflexivity ].
  destruct (status_code r =? 200); [| reflexivity ].
  destruct (json_body r) as [msg | data]; [ reflexivity |].
  repeat match goal with
  | |- context [match ?o with Ret _ => _ | Raise _ => _ end] =>
      destruct o; [| reflexivity ]
  | |- context [if ?b then _ else _] => destruct b
  end; reflexivity.
Qed.

Lemma find_page_by_title_not_sent (w : World) (page_title : string)
    (envs : gmap string string) (tr : list event) (cloud user token : string) :
  has_credentials envs cloud user token ->
  remote w tr (lookup_request cloud user token page_title) = HttpNotSent ->
  find_page_by_title w page_title envs tr = (Raise UnicodeEncodeError, tr).
Proof.
  intros (Hcloud & Huser & Htoken) Hremote. unfold find_page_by_title.
  unfold_py. rewrite Hcloud, Huser, Htoken.
  fold (lookup_request cloud user token page_title). by rewrite Hremote.
Qed.

Lemma remote_needs_latin1 (w : World) (tr : list event) (req : request)
    (r : response) :
  remote w tr req = HttpResponse r -> basic_auth_encodable (req_auth req) = true.
Proof.
  unfold remote. destruct (answer w tr req); try discriminate.
  by destruct (basic_auth_encodable (req_auth req)).
Qed.

(** X5.  A call of [find_page_by_title] calls [requests.get] once, for the
    pages endpoint of the configured cloud with the title as its only
    parameter and the configured user and token.  When the call returns a
    response or raises a [RequestException], that one request is what the
    call adds to the trace, whatever the answer is.  When the user or the
    token cannot be encoded as latin-1, no response is received: if the
    service would have answered, the call raises [UnicodeEncodeError] and
    adds nothing to the trace.  If [envs] lacks one of the three settings
    the function raises [KeyError] without calling [requests.get]. *)
Theorem find_page_by_title_calls (w : World) (page_title : string)
    (envs : gmap string string) (tr : list event) :
  match envs !! "cloud", envs !! "user", envs !! "token" with
  | Some cloud, Some user, Some token =>
      let req := lookup_request cloud user token page_title in
      match remote w tr req with
      | HttpNotSent =>
          find_page_by_title w page_title envs tr = (Raise UnicodeEncodeError, tr)
      | res =>
          snd (find_page_by_title w page_title envs tr) = tr ++ [EvHttp req res]
      end /\
      (PyString.latin1_encodable user && PyString.latin1_encodable token = false ->
       (forall r, remote w tr req <> HttpResponse r) /\
       (forall r, answer w tr req = HttpResponse r ->
          find_page_by_title w page_title envs tr = (Raise UnicodeEncodeError, tr)))
  | _, _, _ =>
      exists key,
        In key ["cloud"; "user"; "token"] /\
        find_page_by_title w page_title envs tr = (Raise (KeyError key), tr)
  end.
Proof.
  destruct (envs !! "cloud") as [cloud|] eqn:Hc;
    [| exists "cloud"; split; [ simpl; tauto |];
       unfold find_page_by_title; unfold_py; by rewrite Hc ].
  destruct (envs !! "user") as [user|] eqn:Hu;
    [| destruct (envs !! "token"); (exists "user"; split; [ simpl; tauto |]);
       unfold find_page_by_title; unfold_py; by rewrite Hc, Hu ].
  destruct (envs !! "token") as [token|] eqn:Ht;
    [| exists "token"; split; [ simpl; tauto |];
       unfold find_page_by_title; unfold_py; by rewrite Hc, Hu, Ht ].
  assert (has_credentials envs cloud user token) as Hcred by done.
  cbv zeta. split.
  - pose proof (find_page_by_title_trace w page_title envs tr cloud user token Hcred)
      as Htrace.
    destruct (remote w tr (lookup_request cloud user token page_title)) eqn:Hremote;
      try done.
    by apply (find_page_by_title_not_sent w page_title envs tr cloud user token).
  - intros Henc. split.
    + intros r Hr. apply remote_needs_latin1 in Hr.
      unfold basic_auth_encodable in Hr. simpl in Hr. congruence.
    + intros r Hr.
      apply (find_page_by_title_not_sent w page_title envs tr cloud user token Hcred).
      unfold remote. rewrite Hr. unfold basic_auth_encodable. simpl.
      by rewrite Henc.
Qed.

(** X6.  Any answer whose status is not 200 makes the lookup return
    [(None, None)]; the body of such an answer is not decoded. *)
Theorem lookup_non_success_returns_none (w : World) (page_title : string)
    (envs : gmap string string) (tr : list event)
    (cloud user token : string) (r : response) :
  has_credentials envs cloud user token ->
  remote w tr (lookup_request cloud user token page_title) = HttpResponse r ->
  status_code r <> 200 ->
  find_page_by_title w page_title envs tr
    = (Ret (PTuple [PNone; PNone]),
       tr ++ [EvHttp (lookup_request cloud user token page_title) (HttpResponse r)]).
Proof.
  intros Hcred Hremote Hstatus. lookup_start Hcred Hremote.
  by rewrite (proj2 (Z.eqb_neq _ _) Hstatus).
Qed.

Lemma lookup_non_success_returns_none_witness :
  find_page_by_title
    (world_answering (HttpResponse {| status_code := 500;
                                      json_body := inl "Expecting value" |}))
    "a" Scenario.envs []
  = (Ret (PTuple [PNone; PNone]),
     [] ++ [EvHttp (lookup_request "acme" "bot" "secret" "a")
              (HttpResponse {| status_code := 500;
                               json_body := inl "Expecting value" |})]).
Proof.
  apply lookup_non_success_returns_none.
  - vm_compute. done.
  - reflexivity.
  - simpl. lia.
Defined.

(** X7.  When the answer has status 200 and its [results] list is not
    empty, the lookup returns the identifier, the version number and the
    stored body of the first match; further matches are ignored. *)
Theorem lookup_returns_first_match (w : World) (page_title : string)
    (envs : gmap string string) (tr : list event)
    (cloud user token : string) (r : response)
    (data first version body : list (string * pyval)) (others : list pyval)
    (page_id number content : pyval) :
  has_credentials envs cloud user token ->
  remote w tr (lookup_request cloud user token page_title) = HttpResponse r ->
  status_code r = 200 ->
  json_body r = inr (PDict data) ->
  PyVal.assoc "results" data = Some (PList (PDict first :: others)) ->
  PyVal.assoc "id" first = Some page_id ->
  PyVal.assoc "version" first = Some (PDict version) ->
  PyVal.assoc "number" version = Some number ->
  PyVal.assoc "body" first = Some (PDict body) ->
  PyVal.assoc "storage" body = Some content ->
  find_page_by_title w page_title envs tr
    = (Ret (PTuple [page_id; number; content]),
       tr ++ [EvHttp (lookup_request cloud user token page_title) (HttpResponse r)]).
Proof.
  intros Hcred Hremote Hstatus Hjson Hresults Hid Hversion Hnumber Hbody Hstorage.
  lookup_start Hcred Hremote.
  rewrite Hstatus, Hjson. simpl.
  rewrite Hresults. simpl.
  by rewrite Hid, Hversion, Hbody; simpl; rewrite Hnumber, Hstorage.
Qed.

Lemma lookup_returns_first_match_witness :
  find_page_by_title
    (world_answering (HttpResponse
       {| status_code := 200;
          json_body := inr (PDict [("results",
            PList [Scenario.page "7" 2 "<p>one</p>";
                   Scenario.page "8" 9 "<p>two</p>"])]) |}))
    "a" Scenario.envs []
  = (Ret (PTuple [PStr "7"; PInt 2; PStr "<p>one</p>"]),
     [] ++ [EvHttp (lookup_request "acme" "bot" "secret" "a")
              (HttpResponse
                 {| status_code := 200;
                    json_body := inr (PDict [("results",
                      PList [Scenario.page "7" 2 "<p>one</p>";
                             Scenario.page "8" 9 "<p>two</p>"])]) |})]).
Proof.
  eapply lookup_returns_first_match;
    first [ by vm_compute | reflexivity ].
Defined.

(** X8.  When the answer has status 200 and is a JSON object whose
    [results] entry is absent, [null] or an empty list, the lookup returns
    [(None, None)]. *)
Theorem lookup_without_match_returns_none (w : World) (page_title : string)
    (envs : gmap string string) (tr : list event)
    (cloud user token : string) (r : response)
    (data : list (string * pyval)) :
  has_credentials envs cloud user token ->
  remote w tr (lookup_request cloud user token page_title) = HttpResponse r ->
  status_code r = 200 ->
  json_body r = inr (PDict data) ->
  PyVal.assoc "results" data = None \/
  PyVal.assoc "results" data = Some PNone \/
  PyVal.assoc "results" data = Some (PList []) ->
  find_page_by_title w page_title envs tr
    = (Ret (PTuple [PNone; PNone]),
       tr ++ [EvHttp (lookup_request cloud user token page_title) (HttpResponse r)]).
Proof.
  intros Hcred Hremote Hstatus Hjson Hresults.
  lookup_start Hcred Hremote.
  rewrite Hstatus, Hjson. simpl.
  by destruct Hresults as [-> | [-> | ->]].
Qed.

Lemma lookup_without_match_returns_none_witness :
  find_page_by_title
    (world_answering (HttpResponse
       {| status_code := 200; json_body := inr (PDict [("results", PList [])]) |}))
    "a" Scenario.envs []
  = (Ret (PTuple [PNone; PNone]),
     [] ++ [EvHttp (lookup_request "acme" "bot" "secret" "a")
              (HttpResponse
                 {| status_code := 200;
                    json_body := inr (PDict [("results", PList [])]) |})]).
Proof.
  eapply lookup_without_match_returns_none;
    first [ by vm_compute | reflexivity | right; right; reflexivity ].
Defined.

(** X9.  When the answer has status 200 and its first match has no stored
    body under [body.storage], the lookup raises [KeyError] for the key
    ["storage"]; [process_file] does not catch it, so the call ends with
    that exception after the lookup. *)
Theorem lookup_match_without_storage_raises (w : World) (md_file : string)
    (envs : gmap string string) (links : list string) (tr : list event)
    (cloud user token text : string) (r : response)
    (data first version body : list (string * pyval)) (others : list pyval)
    (page_id number : pyval) :
  has_credentials envs cloud user token ->
  read_text w md_file = ReadOk text ->
  remote w (tr ++ [EvOpen md_file])
    (lookup_request cloud user token (page_title_of md_file)) = HttpResponse r ->
  status_code r = 200 ->
  json_body r = inr (PDict data) ->
  PyVal.assoc "results" data = Some (PList (PDict first :: others)) ->
  PyVal.assoc "id" first = Some page_id ->
  PyVal.assoc "version" first = Some (PDict version) ->
  PyVal.assoc "number" version = Some number ->
  PyVal.assoc "body" first = Some (PDict body) ->
  PyVal.assoc "storage" body = None ->
  find_page_by_title w (page_title_of md_file) envs (tr ++ [EvOpen md_file])
    = (Raise (KeyError "storage"),
       (tr ++ [EvOpen md_file])
       ++ [EvHttp (lookup_request cloud user token (page_title_of md_file))
                  (HttpResponse r)]) /\
  process_file w md_file envs links tr
    = (Raise (KeyError "storage"),
       (tr ++ [EvOpen md_file])
       ++ [EvHttp (lookup_request cloud user token (page_title_of md_file))
                  (HttpResponse r)]).
Proof.
  intros Hcred Hread Hremote Hstatus Hjson Hresults Hid Hversion Hnumber
    Hbody Hstorage.
  assert (find_page_by_title w (page_title_of md_file) envs (tr ++ [EvOpen md_file])
    = (Raise (KeyError "storage"),
       (tr ++ [EvOpen md_file])
       ++ [EvHttp (lookup_request cloud user token (page_title_of md_file))
                  (HttpResponse r)])) as Hfind.
  { lookup_start Hcred Hremote.
    rewrite Hstatus, Hjson. simpl.
    rewrite Hresults. simpl.
    by rewrite Hid, Hversion, Hbody; simpl; rewrite Hnumber, Hstorage. }
  split; [ done |].
  unfold process_file, process_file_body, try_except, open_read,
    bind at 1 2, emit.
  rewrite Hread. unfold ret at 1, bind at 1.
  fold (page_title_of md_file). by rewrite Hfind.
Qed.

Lemma lookup_match_without_storage_raises_witness :
  process_file
    (world_answering (HttpResponse
       {| status_code := 200;
          json_body := inr (PDict [("results",
            PList [PDict [("id", PStr "7");
                          ("version", PDict [("number", PInt 2)]);
                          ("body", PDict [])]])]) |}))
    "/ws/docs/a.md" Scenario.envs [] []
  = (Raise (KeyError "storage"),
     ([] ++ [EvOpen "/ws/docs/a.md"])
     ++ [EvHttp (lookup_request "acme" "bot" "secret" (page_title_of "/ws/docs/a.md"))
           (HttpResponse
              {| status_code := 200;
                 json_body := inr (PDict [("results",
                   PList [PDict [("id", PStr "7");
                                 ("version", PDict [("number", PInt 2)]);
                                 ("body", PDict [])]])]) |})]).
Proof.
  refine (proj2 (lookup_match_without_storage_raises _ "/ws/docs/a.md"
            Scenario.envs [] [] "acme" "bot" "secret" "alpha" _
            _ _ _ _ [] (PStr "7") (PInt 2) _ _ _ _ _ _ _ _ _ _ _));
    first [ by vm_compute | reflexivity ].
Defined.

(** ** The events of a call of [process_file] and of a run *)

Lemma process_file_events (w : World) (md_file : string)
    (envs : gmap string string) (links : list string) (tr : list event)
    (cloud user token : string) :
  has_credentials envs cloud user token ->
  exists e extra,
    process_file w md_file envs links tr
      = (Raise e, tr ++ EvOpen md_file :: extra) /\
    (extra = [] \/
     extra = [EvHttp (lookup_request cloud user token (page_title_of md_file))
                (remote w (tr ++ [EvOpen md_file])
                   (lookup_request cloud user token (page_title_of md_file)))] \/
     exists msg,
       e = SystemExit 1 /\
       extra = [EvHttp (lookup_request cloud user token (page_title_of md_file))
                  (remote w (tr ++ [EvOpen md_file])
                     (lookup_request cloud user token (page_title_of md_file)));
                EvPrint (HttpRequestError msg)]).
Proof.
  intros Hcred.
  unfold process_file, process_file_body, try_except, open_read,
    bind at 1 2, emit.
  destruct (read_text w md_file) as [text | |];
    [| exists (OSError md_file), []; split; [ done | by left ]
     | exists UnicodeDecodeError, []; split; [ done | by left ] ].
  unfold ret at 1, bind at 1. fold (page_title_of md_file).
  destruct (remote w (tr ++ [EvOpen md_file])
              (lookup_request cloud user token (page_title_of md_file)))
    as [msg | r |] eqn:Hremote;
    [ | | rewrite (find_page_by_title_not_sent w (page_title_of md_file) envs
                     (tr ++ [EvOpen md_file]) cloud user token Hcred Hremote);
          simpl; eexists _, _; split; [ reflexivity | by left ] ].
  all: pose proof (find_page_by_title_trace w (page_title_of md_file) envs
                     (tr ++ [EvOpen md_file]) cloud user token Hcred) as Htrace;
    rewrite Hremote in Htrace;
    pose proof (find_page_by_title_result w (page_title_of md_file) envs
                  (tr ++ [EvOpen md_file])) as Hres;
    destruct (find_page_by_title _ _ _ _) as [o tr1]; simpl in Htrace; subst tr1;
    rewrite <- app_assoc; simpl;
    destruct o as [v | e];
    [ assert (is_lookup_tuple v) as Hv by (inversion Hres; by subst);
      unfold bind at 1, lift at 1; rewrite (getitem_str_lookup_tuple v _ Hv);
      simpl; eexists _, _; split; [ reflexivity | right; by left ]
    | destruct (is_RequestException w e) eqn:Hcatch;
      [ unfold_py; rewrite <- app_assoc; simpl;
        eexists _, _; split; [ reflexivity | right; right; by eexists ]
      | eexists _, _; split; [ reflexivity | right; by left ] ] ].
Qed.

Lemma loaded_envs_credentials (w : World) :
  required_settings_present w ->
  exists cloud user token,
    environ w !! "cloud" = Some cloud /\
    environ w !! "user" = Some user /\
    environ w !! "token" = Some token /\
    has_credentials (loaded_envs w) cloud user token.
Proof.
  intros Hreq.
  assert (forall name, In name env_var_names ->
            exists v, environ w !! name = Some v /\ loaded_envs w !! name = Some v)
    as Hget.
  { intros name Hin. rewrite loaded_envs_lookup by done.
    rewrite bool_decide_eq_true_2
      by (apply list_elem_of_In, in_or_app; by left).
    unfold required_settings_present in Hreq. rewrite forallb_forall in Hreq.
    destruct (is_set_lookup w name (Hreq name Hin)) as (v & Hv & _). eauto. }
  destruct (Hget "cloud") as (cloud & ? & ?); [ simpl; tauto |].
  destruct (Hget "user") as (user & ? & ?); [ simpl; tauto |].
  destruct (Hget "token") as (token & ? & ?); [ simpl; tauto |].
  exists cloud, user, token. by repeat split.
Qed.

Lemma exclude_list_loaded (w : World) :
  required_settings_present w ->
  exclude_list (loaded_envs w) = exclude_list (environ w).
Proof.
  intros Hreq. unfold exclude_list. rewrite loaded_envs_lookup by done.
  rewrite bool_decide_eq_true_2; [ done |].
  apply list_elem_of_In. unfold setting_names. simpl. tauto.
Qed.

(** The ways a run with a complete configuration can end. *)
Lemma run_with_settings (w : World) :
  required_settings_present w ->
  run w = (Raise (KeyError "GITHUB_WORKSPACE"), []) \/
  run w = (Raise (SystemExit 1), [EvPrint NoInputProvided]) \/
  (exists d ws,
     environ w !! "input_file" = None /\
     environ w !! "input_md_directory" = Some d /\
     environ w !! "GITHUB_WORKSPACE" = Some ws /\
     first_selected (exclude_list (environ w)) (os_walk w (OsPath.join ws d))
       = None /\
     run w = (Ret tt, [EvWalk (OsPath.join ws d); EvPrint (LinkList [])])) \/
  (exists md_file tr0 e tr,
     ((exists f ws,
         environ w !! "input_file" = Some f /\
         environ w !! "GITHUB_WORKSPACE" = Some ws /\
         md_file = OsPath.join ws f /\ tr0 = []) \/
      (exists d ws,
         environ w !! "input_file" = None /\
         environ w !! "input_md_directory" = Some d /\
         environ w !! "GITHUB_WORKSPACE" = Some ws /\
         first_selected (exclude_list (environ w)) (os_walk w (OsPath.join ws d))
           = Some md_file /\
         tr0 = [EvWalk (OsPath.join ws d)])) /\
     process_file w md_file (loaded_envs w) [] tr0 = (Raise e, tr) /\
     run w = (Raise e, tr)).
Proof.
  intros Hreq.
  destruct (environ w !! "input_file") as [f|] eqn:Hfile.
  - pose proof (run_single_file_mode w f Hreq Hfile) as Hrun.
    unfold bind at 2, dict_getitem in Hrun.
    destruct (environ w !! "GITHUB_WORKSPACE") as [ws|]; [| by left ].
    unfold ret at 1, bind in Hrun.
    destruct (process_file_raises w (OsPath.join ws f) (loaded_envs w) [] [])
      as (e & tr & Heq).
    rewrite Heq in Hrun. right; right; right.
    exists (OsPath.join ws f), [], e, tr.
    split; [ left; by exists f, ws | done ].
  - destruct (environ w !! "input_md_directory") as [d|] eqn:Hdir.
    + assert (is_Some (environ w !! "input_md_directory")) as Hsome
        by (rewrite Hdir; eauto).
      pose proof (run_directory_mode w Hreq Hfile Hsome) as Hrun.
      destruct (environ w !! "GITHUB_WORKSPACE") as [ws|] eqn:Hws.
      * unfold bind in Hrun.
        rewrite (process_directory_run w _ _ _ ws d Hws) in Hrun
          by (by rewrite loaded_envs_input_md_directory).
        rewrite exclude_list_loaded in Hrun by done.
        destruct (first_selected _ _) as [md_file|] eqn:Hsel.
        -- destruct (process_file_raises w md_file (loaded_envs w) []
                       ([] ++ [EvWalk (OsPath.join ws d)])) as (e & tr & Heq).
           rewrite Heq in Hrun. right; right; right.
           exists md_file, [EvWalk (OsPath.join ws d)], e, tr.
           split; [ right; by exists d, ws | done ].
        -- right; right; left. exists d, ws. by repeat split.
      * unfold bind in Hrun.
        rewrite process_directory_no_workspace in Hrun by done. by left.
    + rewrite (run_no_mode w Hreq Hfile Hdir). right; by left.
Qed.

Lemma some_setting_missing (w : World) :
  forallb (is_set w) env_var_names = false ->
  exists name, In name env_var_names /\ is_set w name = false.
Proof.
  intros Hreq.
  induction env_var_names as [| n names IH]; [ discriminate |].
  simpl in Hreq. destruct (is_set w n) eqn:Hn.
  - destruct (IH Hreq) as (name & Hin & Hname). exists name. split; [ by right | done ].
  - exists n. split; [ by left | done ].
Qed.

Lemma first_selected_some (exclude_files : list string)
    (walk : list (string * list string * list string)) (md_file : string) :
  first_selected exclude_files walk = Some md_file ->
  exists root dirs files f,
    In (root, dirs, files) walk /\ In f files /\
    selected exclude_files f = true /\ md_file = OsPath.join root f.
Proof.
  induction walk as [| [[root dirs] files] walk IH]; [ discriminate |].
  simpl. destruct (find (selected exclude_files) files) as [f|] eqn:Hfind.
  - intros [= <-]. apply find_some in Hfind as [Hin Hsel].
    exists root, dirs, files, f. repeat split; try done. by left.
  - intros H. destruct (IH H) as (root' & dirs' & files' & f & Hin & ?).
    exists root', dirs', files', f. split; [ by right | done ].
Qed.

Lemma first_selected_none (exclude_files : list string)
    (walk : list (string * list string * list string)) :
  first_selected exclude_files walk = None <->
  forall root dirs files f,
    In (root, dirs, files) walk -> In f files ->
    selected exclude_files f = false.
Proof.
  induction walk as [| [[root dirs] files] walk IH]; simpl.
  - split; [ intros _ ? ? ? ? [] | done ].
  - destruct (find (selected exclude_files) files) as [f|] eqn:Hfind.
    + split; [ discriminate |]. intros H.
      apply find_some in Hfind as [Hin Hsel].
      rewrite (H root dirs files f) in Hsel; [ discriminate | by left | done ].
    + rewrite IH. split.
      * intros H root' dirs' files' f [[= <- <- <-] | Hin] Hf.
        -- by apply (find_none _ _ Hfind).
        -- by apply (H root' dirs' files').
      * intros H root' dirs' files' f Hin Hf.
        apply (H root' dirs' files'); [ by right | done ].
Qed.

(** X10.  With a complete configuration, every HTTP call of a run is the
    title lookup for a file the run has opened, sent to the cloud and with
    the user and token of the environment. *)
Theorem run_calls_are_lookups (w : World) (req : request) (res : http_result) :
  required_settings_present w ->
  In (EvHttp req res) (snd (run w)) ->
  exists cloud user token md_file,
    environ w !! "cloud" = Some cloud /\
    environ w !! "user" = Some user /\
    environ w !! "token" = Some token /\
    In (EvOpen md_file) (snd (run w)) /\
    req = lookup_request cloud user token (page_title_of md_file).
Proof.
  intros Hreq Hin.
  destruct (loaded_envs_credentials w Hreq)
    as (cloud & user & token & Hc & Hu & Ht & Hcred).
  destruct (run_with_settings w Hreq)
    as [Hrun | [Hrun | [(d & ws & _ & _ & _ & _ & Hrun)
                       | (md_file & tr0 & e & tr & Htr0 & Hpf & Hrun)]]];
    rewrite Hrun in *; simpl in Hin;
    try (intuition discriminate).
  destruct (process_file_events w md_file (loaded_envs w) [] tr0
              cloud user token Hcred) as (e' & extra & Hpf' & Hextra).
  rewrite Hpf in Hpf'. injection Hpf' as -> ->.
  exists cloud, user, token, md_file. repeat split; try done.
  - simpl. apply in_or_app. right. by left.
  - apply in_app_or in Hin as [Hin | Hin].
    + destruct Htr0 as [(? & ? & _ & _ & _ & ->) | (? & ? & _ & _ & _ & _ & ->)];
        simpl in Hin; intuition discriminate.
    + destruct Hin as [Hin | Hin]; [ discriminate |].
      destruct Hextra as [-> | [-> | (msg & _ & ->)]]; simpl in Hin;
        intuition (try discriminate); congruence.
Qed.

Lemma run_calls_are_lookups_witness :
  exists cloud user token md_file,
    environ (Scenario.world 200) !! "cloud" = Some cloud /\
    environ (Scenario.world 200) !! "user" = Some user /\
    environ (Scenario.world 200) !! "token" = Some token /\
    In (EvOpen md_file) (snd (run (Scenario.world 200))) /\
    lookup_request "acme" "bot" "secret" "a"
      = lookup_request cloud user token (page_title_of md_file).
Proof.
  apply (run_calls_are_lookups (Scenario.world 200)
           (lookup_request "acme" "bot" "secret" "a") Scenario.no_match).
  - vm_compute. reflexivity.
  - vm_compute. right. right. left. reflexivity.
Defined.

(** X11.  No run ever sends a create or update request; a run sends at
    most one HTTP call and opens at most one file; and whenever the final
    list of links is printed it is empty. *)
Theorem run_never_writes (w : World) :
  Forall (fun ev => is_write ev = false) (snd (run w)) /\
  (length (List.filter is_http (snd (run w))) <= 1)%nat /\
  (length (List.filter is_open (snd (run w))) <= 1)%nat /\
  (forall links, In (EvPrint (LinkList links)) (snd (run w)) -> links = []).
Proof.
  pose proof (run_result_holds w) as Hrun.
  destruct (run w) as [o tr]. simpl.
  inversion Hrun as [name | | | md_file e tr0 Hpf | top md_file e tr0 Hpf | top];
    subst;
    try (inversion Hpf as [e' He | req' msg' Hget | req' r' msg' Hget
                          | req' r' e' Hget He]; subst);
    simpl; (split; [ repeat constructor; simpl; by rewrite ?Hget |]);
    (split; [ lia |]); (split; [ lia |]);
    intros links Hin; repeat (destruct Hin as [Hin | Hin]; try discriminate);
    try done; congruence.
Qed.

(** X12.  A run returns normally (exit status 0) exactly when the
    required settings are present, [input_file] is not set,
    [input_md_directory] and [GITHUB_WORKSPACE] are set, and no file of the
    walked directory passes the test of the loop (in particular when the
    directory is empty or does not exist).  Such a run consists of the walk
    and the printing of an empty list of links. *)
Theorem run_succeeds_iff (w : World) :
  (fst (run w) = Ret tt <->
   required_settings_present w /\
   environ w !! "input_file" = None /\
   exists d ws,
     environ w !! "input_md_directory" = Some d /\
     environ w !! "GITHUB_WORKSPACE" = Some ws /\
     forall root dirs files f,
       In (root, dirs, files) (os_walk w (OsPath.join ws d)) ->
       In f files ->
       selected (exclude_list (environ w)) f = false) /\
  (forall d ws,
     fst (run w) = Ret tt ->
     environ w !! "input_md_directory" = Some d ->
     environ w !! "GITHUB_WORKSPACE" = Some ws ->
     run w = (Ret tt, [EvWalk (OsPath.join ws d); EvPrint (LinkList [])])).
Proof.
  assert (fst (run w) = Ret tt ->
          required_settings_present w /\
          environ w !! "input_file" = None /\
          exists d ws,
            environ w !! "input_md_directory" = Some d /\
            environ w !! "GITHUB_WORKSPACE" = Some ws /\
            (forall root dirs files f,
               In (root, dirs, files) (os_walk w (OsPath.join ws d)) ->
               In f files ->
               selected (exclude_list (environ w)) f = false) /\
            run w = (Ret tt, [EvWalk (OsPath.join ws d); EvPrint (LinkList [])]))
    as Honly.
  { intros Hret.
    destruct (forallb (is_set w) env_var_names) eqn:Hreq.
    - destruct (run_with_settings w Hreq)
        as [Hrun | [Hrun | [(d & ws & Hfile & Hdir & Hws & Hsel & Hrun)
                           | (md_file & tr0 & e & tr & _ & _ & Hrun)]]];
        try (rewrite Hrun in Hret; discriminate Hret).
      split; [ done |]. split; [ done |].
      exists d, ws. repeat split; try done.
      by apply first_selected_none.
    - destruct (some_setting_missing w Hreq) as (name & Hin & Hmiss).
      destruct (run_missing w name Hin Hmiss) as (? & first & ? & _ & _ & _ & Hrun).
      rewrite Hrun in Hret. discriminate Hret. }
  split; [ split |].
  - intros Hret.
    destruct (Honly Hret) as (Hreq & Hfile & d & ws & Hdir & Hws & Hsel & _).
    repeat split; try done. by exists d, ws.
  - intros (Hreq & Hfile & d & ws & Hdir & Hws & Hsel).
    assert (is_Some (environ w !! "input_md_directory")) as Hsome
      by (rewrite Hdir; eauto).
    rewrite (run_directory_mode w Hreq Hfile Hsome). unfold bind.
    rewrite (process_directory_run w _ _ _ ws d Hws)
      by (by rewrite loaded_envs_input_md_directory).
    rewrite exclude_list_loaded by done.
    by rewrite (proj2 (first_selected_none _ _) Hsel).
  - intros d ws Hret Hdir Hws.
    destruct (Honly Hret) as (_ & _ & d' & ws' & Hdir' & Hws' & _ & Hrun).
    congruence.
Qed.

Lemma run_succeeds_iff_witness :
  fst (run (world_with_directory "drafts")) = Ret tt.
Proof.
  apply (proj2 (proj1 (run_succeeds_iff (world_with_directory "drafts")))).
  split; [ vm_compute; reflexivity |].
  split; [ vm_compute; reflexivity |].
  exists "drafts", "/ws".
  split; [ vm_compute; reflexivity |].
  split; [ vm_compute; reflexivity |].
  intros root dirs files f Hin. vm_compute in Hin. destruct Hin.
Defined.

(** X13.  In directory mode every file a run opens is a file of the walked
    tree, joined to the directory it was found in, whose name passes the
    test of the loop: files that do not end in [.md] and files named in the
    exclusion list are never opened. *)
Theorem directory_run_opens_only_selected_files (w : World)
    (d ws path : string) :
  required_settings_present w ->
  environ w !! "input_file" = None ->
  environ w !! "input_md_directory" = Some d ->
  environ w !! "GITHUB_WORKSPACE" = Some ws ->
  In (EvOpen path) (snd (run w)) ->
  exists root dirs files f,
    In (root, dirs, files) (os_walk w (OsPath.join ws d)) /\
    In f files /\
    selected (exclude_list (environ w)) f = true /\
    path = OsPath.join root f.
Proof.
  intros Hreq Hfile Hdir Hws Hin.
  destruct (loaded_envs_credentials w Hreq)
    as (cloud & user & token & _ & _ & _ & Hcred).
  destruct (run_with_settings w Hreq)
    as [Hrun | [Hrun | [(d' & ws' & _ & _ & _ & _ & Hrun)
                       | (md_file & tr0 & e & tr & Hmode & Hpf & Hrun)]]];
    rewrite Hrun in Hin; simpl in Hin; try (intuition discriminate).
  destruct Hmode as [(f & ? & Hf & _) | (d' & ws' & _ & Hd' & Hws' & Hsel & ->)];
    [ congruence |].
  assert (d' = d) as -> by congruence. assert (ws' = ws) as -> by congruence.
  destruct (process_file_events w md_file (loaded_envs w) []
              [EvWalk (OsPath.join ws d)] cloud user token Hcred)
    as (e' & extra & Hpf' & Hextra).
  rewrite Hpf in Hpf'. injection Hpf' as -> ->.
  assert (path = md_file) as ->.
  { simpl in Hin. destruct Hin as [Hin | [Hin | Hin]];
      [ discriminate | congruence |].
    destruct Hextra as [-> | [-> | (msg & _ & ->)]]; simpl in Hin;
      intuition discriminate. }
  by apply first_selected_some.
Qed.

Lemma directory_run_opens_only_selected_files_witness :
  exists root dirs files f,
    In (root, dirs, files)
       (os_walk (Scenario.world 200) (OsPath.join "/ws" "docs")) /\
    In f files /\
    selected (exclude_list (environ (Scenario.world 200))) f = true /\
    "/ws/docs/a.md" = OsPath.join root f.
Proof.
  apply (directory_run_opens_only_selected_files (Scenario.world 200)
           "docs" "/ws" "/ws/docs/a.md");
    try (vm_compute; reflexivity).
  vm_compute. right. left. reflexivity.
Defined.

(** X14.  An [input_file] that is an absolute path is opened as it is: the
    workspace root is not put in front of it. *)
Theorem absolute_input_file_ignores_workspace (w : World) (f ws : string) :
  required_settings_present w ->
  environ w !! "input_file" = Some f ->
  environ w !! "GITHUB_WORKSPACE" = Some ws ->
  PyString.startswith f "/" = true ->
  exists rest, snd (run w) = EvOpen f :: rest.
Proof.
  intros Hreq Hfile Hws Habs.
  destruct (loaded_envs_credentials w Hreq)
    as (cloud & user & token & _ & _ & _ & Hcred).
  pose proof (run_single_file_mode w f Hreq Hfile) as Hrun.
  unfold bind at 2, dict_getitem in Hrun. rewrite Hws in Hrun.
  unfold ret at 1, bind in Hrun.
  replace (OsPath.join ws f) with f in Hrun
    by (unfold OsPath.join; by rewrite Habs).
  destruct (process_file_events w f (loaded_envs w) [] [] cloud user token Hcred)
    as (e & extra & Hpf & _).
  rewrite Hpf in Hrun. rewrite Hrun. simpl. eauto.
Qed.

Lemma absolute_input_file_ignores_workspace_witness :
  exists rest,
    snd (run (Scenario.single_file_world "/ws/docs/c.md" 200))
      = EvOpen "/ws/docs/c.md" :: rest.
Proof.
  apply (absolute_input_file_ignores_workspace
           (Scenario.single_file_world "/ws/docs/c.md" 200) "/ws/docs/c.md" "/ws");
    vm_compute; reflexivity.
Defined.

(** ** Answers that are not what the lookup expects *)

(** X15.  When the answer to the lookup has status 200 and a body that is
    not JSON, decoding raises.  If the decoding error is a
    [RequestException], [process_file] reports it as an HTTP request error
    and exits with status 1; otherwise the error leaves [process_file]
    uncaught.  In both cases nothing is sent after the lookup. *)
Theorem lookup_invalid_json (w : World) (md_file : string)
    (envs : gmap string string) (links : list string) (tr : list event)
    (cloud user token text msg : string) (r : response) :
  has_credentials envs cloud user token ->
  read_text w md_file = ReadOk text ->
  remote w (tr ++ [EvOpen md_file])
    (lookup_request cloud user token (page_title_of md_file)) = HttpResponse r ->
  status_code r = 200 ->
  json_body r = inl msg ->
  process_file w md_file envs links tr =
    if json_error_is_request_exception w
    then (Raise (SystemExit 1),
          tr ++ [EvOpen md_file;
                 EvHttp (lookup_request cloud user token (page_title_of md_file))
                        (HttpResponse r);
                 EvPrint (HttpRequestError msg)])
    else (Raise (JSONDecodeError msg),
          tr ++ [EvOpen md_file;
                 EvHttp (lookup_request cloud user token (page_title_of md_file))
                        (HttpResponse r)]).
Proof.
  intros Hcred Hread Hremote Hstatus Hjson.
  assert (find_page_by_title w (page_title_of md_file) envs (tr ++ [EvOpen md_file])
    = (Raise (JSONDecodeError msg),
       (tr ++ [EvOpen md_file])
       ++ [EvHttp (lookup_request cloud user token (page_title_of md_file))
                  (HttpResponse r)])) as Hfind.
  { lookup_start Hcred Hremote. by rewrite Hstatus, Hjson. }
  unfold process_file, process_file_body, try_except, open_read,
    bind at 1 2, emit.
  rewrite Hread. unfold ret at 1, bind at 1.
  fold (page_title_of md_file). rewrite Hfind. simpl.
  destruct (json_error_is_request_exception w); unfold_py;
    by rewrite <- !app_assoc.
Qed.

Lemma lookup_invalid_json_witness :
  process_file
    (world_answering (HttpResponse {| status_code := 200;
                                      json_body := inl "Expecting value" |}))
    "/ws/docs/a.md" Scenario.envs [] []
  = (Raise (SystemExit 1),
     [] ++ [EvOpen "/ws/docs/a.md";
            EvHttp (lookup_request "acme" "bot" "secret"
                      (page_title_of "/ws/docs/a.md"))
                   (HttpResponse {| status_code := 200;
                                    json_body := inl "Expecting value" |});
            EvPrint (HttpRequestError "Expecting value")]).
Proof.
  refine (lookup_invalid_json
            (world_answering (HttpResponse {| status_code := 200;
                                              json_body := inl "Expecting value" |}))
            "/ws/docs/a.md" Scenario.envs [] [] "acme" "bot" "secret" "alpha"
            "Expecting value" _ _ _ _ _ _);
    first [ by vm_compute | reflexivity ].
Defined.

(** X16.  When the answer to the lookup has status 200 and its JSON is not
    an object (a list, a string, a number, [null]), [data.get] raises
    [AttributeError], which [process_file] does not catch. *)
Theorem lookup_json_not_an_object (w : World) (md_file : string)
    (envs : gmap string string) (links : list string) (tr : list event)
    (cloud user token text : string) (r : response) (data : pyval) :
  has_credentials envs cloud user token ->
  read_text w md_file = ReadOk text ->
  remote w (tr ++ [EvOpen md_file])
    (lookup_request cloud user token (page_title_of md_file)) = HttpResponse r ->
  status_code r = 200 ->
  json_body r = inr data ->
  (forall items, data <> PDict items) ->
  process_file w md_file envs links tr
    = (Raise AttributeError,
       tr ++ [EvOpen md_file;
              EvHttp (lookup_request cloud user token (page_title_of md_file))
                     (HttpResponse r)]).
Proof.
  intros Hcred Hread Hremote Hstatus Hjson Hdata.
  assert (find_page_by_title w (page_title_of md_file) envs (tr ++ [EvOpen md_file])
    = (Raise AttributeError,
       (tr ++ [EvOpen md_file])
       ++ [EvHttp (lookup_request cloud user token (page_title_of md_file))
                  (HttpResponse r)])) as Hfind.
  { lookup_start Hcred Hremote. rewrite Hstatus, Hjson. simpl.
    destruct data; try done. by destruct (Hdata items). }
  unfold process_file, process_file_body, try_except, open_read,
    bind at 1 2, emit.
  rewrite Hread. unfold ret at 1, bind at 1.
  fold (page_title_of md_file). rewrite Hfind. simpl.
  by rewrite <- !app_assoc.
Qed.

Lemma lookup_json_not_an_object_witness :
  process_file
    (world_answering (HttpResponse {| status_code := 200;
                                      json_body := inr (PList []) |}))
    "/ws/docs/a.md" Scenario.envs [] []
  = (Raise AttributeError,
     [] ++ [EvOpen "/ws/docs/a.md";
            EvHttp (lookup_request "acme" "bot" "secret"
                      (page_title_of "/ws/docs/a.md"))
                   (HttpResponse {| status_code := 200;
                                    json_body := inr (PList []) |})]).
Proof.
  refine (lookup_json_not_an_object
            (world_answering (HttpResponse {| status_code := 200;
                                              json_body := inr (PList []) |}))
            "/ws/docs/a.md" Scenario.envs [] [] "acme" "bot" "secret" "alpha"
            _ (PList []) _ _ _ _ _ _);
    first [ by vm_compute | reflexivity | done ].
Defined.
